(* ===== verification/_CoqProject ===== *)
-Q . S2P
Prelude.v
Rowid.v
Utf8.v
Unicode.v
Bcrypt.v
UserModel.v
RecipeModel.v
Store.v
Requests.v
Credential.v
