(* ===== verification/Prelude.v ===== *)
(** * A verification of the recipe-sharing models (src/server/models.py)

    The program is two SQLAlchemy models, [User] and [Recipe], declared in
    src/server/models.py.  [User] keeps a username (validated on every
    assignment), an optional image and bio, and a bcrypt hash of a password
    behind a write-only hybrid property; it authenticates a password against
    the stored hash and serialises itself without the hash.  [Recipe] keeps
    a title and instructions (validated on every assignment), a duration and
    a foreign key to its owner, and serialises itself with its owner's public
    view embedded.  The models are driven by a request layer (not part of the
    sources) through the SQLAlchemy session, which stores the rows in a
    SQLite database.

    The development is a shallow embedding, one file per part:

    - [Prelude] (this file): Python exceptions as a constructor of
      [result], the error monad with its notation in [py_scope], Python
      truthiness of optional strings, the plain-value type [pyval] that the
      [to_dict] methods return, bounds on bytes held as [Z], the hint
      databases and tactics the other files share.
    - [Rowid] (Module [Rowid]): how SQLite allocates the INTEGER PRIMARY
      KEY [id] of both tables: the largest rowid plus one, and past
      2^63 - 1 a bounded random search (at most 100 draws) ending in
      [SQLITE_FULL]; the loop is defined with Equations by well-founded
      recursion on its variant [100 - cnt].
    - [Utf8]: [str.encode('utf-8')] and [bytes.decode('utf-8')] on strings
      whose characters are the code points 0..255 (a Rocq [ascii] is eight
      bits): the round trip in both directions, the byte bounds, and the
      equivalence of the bit-operation encoder with an arithmetic
      reference; the two-byte case is checked by reflection over all
      65536 byte pairs ([forall_bytes]), since 256 values bound each byte.
    - [Unicode] (Module [Unicode]): a Python [str] as its code points
      0..0x10FFFF and CPython's strict UTF-8 encoder (one to four bytes,
      [UnicodeEncodeError] on a lone surrogate), the call that flask_bcrypt
      makes on a password; the bit operations are turned into arithmetic
      ([lor_low], [encode_char_arith]) and the byte ranges are settled by
      [zbool] / [zlia], [lia] after naming the quotients.  CPython's strict
      decoder is defined only as the encoder's inverse, to prove the
      encoder injective.
    - [Bcrypt]: the hashing library the code calls ([bcrypt] of config.py,
      a [flask_bcrypt.Bcrypt]) as a type class of the primitive
      [bcrypt.hashpw] with its laws, and flask_bcrypt's
      [generate_password_hash] / [check_password_hash] on [str] passwords
      written over it.
    - [UserModel] (Module [User]): the [User] row, its validator, the
      password property, [authenticate], [to_dict] and the keyword
      constructor, which refuses [password_hash] as a keyword.
    - [RecipeModel] (Module [Recipe]): the [Recipe] row, its two
      validators, [to_dict] and the keyword constructor.
    - [Store]: the session and the SQLite tables: the column constraints
      declared in models.py, id assignment, the relationship and its
      backref, ORM deletion, user and recipe updates (re-running the
      validators), a user added with its recipes in one commit (the
      relationship's save-update cascade and the flush order), a step
      relation over the store and its invariant.
    - [Requests]: the signup and login handlers of the request layer (not
      under src/, modelled from the spec) as compositions of the [User]
      operations with the store's INSERT and query.
    - [Credential]: an abstract specification of a credential holder and
      the refinement proof that the [User] password operations implement
      it.

    How the parts map to the code:
    - a [User] / [Recipe] instance is a Rocq record with one [option]
      field per column ([None] until assigned); every Python attribute
      assignment is one constructor of [User.attr] / [Recipe.attr], and
      [setattr] runs the hook models.py attaches to it ([@validates], the
      hybrid property setter); the constructor [User(k=v, ...)] is
      [run_writes] of the writes in order, stopping at the first raise,
      after SQLAlchemy's [hasattr] check of each keyword;
    - a password is a Python [str] ([Unicode.pystr]); the theorems stated
      on Rocq strings pass one through [Unicode.of_string];
    - raising is a value: each operation returns [result A], [Ok] or
      [Raise e] with the Python exception class and message;
    - the bcrypt salt, random in the program, is an explicit argument of
      the password write; the library is the type class [BcryptLib], so
      every password theorem holds for any implementation of its laws, and
      the examples run with [ToyBcrypt];
    - the database is [Store.db], two [gmap Z _] tables keyed by rowid, and
      each request is one step of [Store.step].

    What the theorems show (claim ids C1..C33 in the doc comments):
    - C1-C5 ([UserModel]): set-then-authenticate, the exact answer of
      [authenticate] after a password write (equality of the first 72 UTF-8
      bytes), exactness for short passwords, on Latin-1 strings and on any
      [str] of valid code points, and the [UnicodeEncodeError] that both
      the password write and [authenticate] raise exactly on a password
      holding a lone surrogate;
    - C6-C8: the hash never reaches [to_dict] or the getter, and the two
      error paths (no hash, empty password);
    - C9-C12: the username validator and the invariant it keeps over any
      sequence of writes; the constructor without [username] always
      succeeds with no username (it validates only what is passed), and
      refuses [password_hash] as a keyword with [TypeError];
    - C13-C16 ([RecipeModel]): the two validators, their invariant, and the
      nested public view of a recipe, which never names the hash;
    - C17-C21 ([Store]): every reachable store (any sequence of inserts,
      updates, deletes and cascaded inserts) is well formed (unique
      non-empty usernames, valid recipes, ids in the 64-bit range), the
      UNIQUE error, fresh ids, deletion does not cascade, and the foreign
      key is not enforced;
    - C22 ([Credential]): refinement of an abstract credential by the
      [User] password operations over any request sequence;
    - C23 ([Utf8]): decoding accepts exactly the encodings, on 8-bit
      strings, so the stored hash string and its bytes determine each
      other;
    - C24-C25 ([Requests]): login after signup succeeds exactly for a
      bcrypt-equivalent password, and a user row without a hash makes
      login raise;
    - C26-C28 ([Store]): an insert with a fresh name always goes through
      below the rowid bound (liveness), ids are reused after deleting the
      largest one, and the JSON view of a stored recipe has the schema's
      types;
    - C29-C31 ([Rowid]): the random rowid search reads at most 100 draws
      (termination), fails exactly when all candidates are taken, and
      gives a free 64-bit rowid (random ones in [1, 2^62]);
    - C32-C33 ([Store]): after [user.recipes = rs] and one commit the
      collection read back is exactly [rs], owned by the new user, and the
      recipes were inserted in collection order with consecutive ids.

    Bounds and assumptions: rowids and Integer columns are signed 64-bit
    ([Rowid.int64_ok]); no function uses fuel: every recursion is
    structural except the rowid search, whose bound of 100 draws is the
    one the C code has.  The random values SQLite and bcrypt use are
    explicit arguments ([rnd], [salt]), so every theorem holds for all of
    them, and the step relation lets each step choose its own.  The
    models' other strings are Rocq strings (code points 0..255); passwords
    are any [str].  bcrypt's collision freedom is idealised as injectivity
    on the first 72 bytes, and its truncation to 72 bytes is the behaviour
    of bcrypt 4.x (bcrypt 5.0 raises [ValueError] on longer passwords; no
    version is pinned), on which C2, C3, C5, C22 and C24 rest.

    Not modelled: config.py (it only builds the Flask app, the
    SQLAlchemy [db] and the [Bcrypt] object, whose behaviour [Bcrypt]
    and [Store] model) and the JSON transport, which are not among the
    sources; the request handlers other than signup and login (only as
    [Store.step] transitions) and the session cookie; SerializerMixin,
    whose [to_dict] both models override, so none of its code runs;
    multi-request transactions and primary key rewrites; I/O errors of
    SQLite; the bcrypt primitive itself (an interface with laws);
    flask_bcrypt's optional pre-hashing of long passwords, off by
    default; bcrypt 5.0's rejection of long passwords.  The User and
    Recipe models hold Rocq strings, so names, titles and instructions
    with code points above 255 are not covered. *)

From stdpp Require Export base strings list gmap.
From Stdlib Require Export ZArith Ascii.

Open Scope Z_scope.

(** ** Python exceptions and the error monad *)

(** The exceptions the modelled code raises, by their Python class. *)
Inductive exn : Type :=
| ValueError (msg : string)
| AttributeError (msg : string)
| TypeError (msg : string)
| IntegrityError (msg : string)
| OverflowError (msg : string)
| OperationalError (msg : string)
| UnicodeEncodeError (msg : string)
| UnicodeDecodeError (msg : string).

#[export] Instance exn_eq_dec : EqDecision exn.
Proof. solve_decision. Defined.

(** A Python call either returns a value or raises. *)
Inductive result (A : Type) : Type :=
| Ok (a : A)
| Raise (e : exn).
Arguments Ok {A} a.
Arguments Raise {A} e.

Definition bind {A B} (c : result A) (k : A -> result B) : result B :=
  match c with
  | Ok a => k a
  | Raise e => Raise e
  end.

Definition is_ok {A} (r : result A) : bool :=
  match r with Ok _ => true | Raise _ => false end.

Declare Scope py_scope.
Delimit Scope py_scope with py.
Notation "x <- c ;; k" := (bind c (fun x => k))
  (at level 60, c at next level, right associativity) : py_scope.
Open Scope py_scope.

(** The value of a call known to return, for stating examples. *)
Definition ok_or {A} (d : A) (r : result A) : A :=
  match r with Ok a => a | Raise _ => d end.

(** ** Strings *)

(** Python's [c * n] for a one-character string [c]. *)
Fixpoint str_repeat (n : nat) (c : ascii) : string :=
  match n with
  | O => EmptyString
  | S n' => String c (str_repeat n' c)
  end.

(** ** Python truthiness of an optional string ([None] or a [str]) *)

Definition py_truthy (v : option string) : bool :=
  match v with
  | Some (String _ _) => true
  | _ => false
  end.

(** ** Plain values, as the [to_dict] methods return them *)

#[warnings="-register-all"]
Inductive pyval : Type :=
| PyNone
| PyInt (z : Z)
| PyStr (s : string)
| PyDict (d : list (string * pyval)).

Definition pystr_of (v : option string) : pyval :=
  match v with Some s => PyStr s | None => PyNone end.

Definition pyint_of (v : option Z) : pyval :=
  match v with Some z => PyInt z | None => PyNone end.

(** Every key of a dict and of the dicts nested in it. *)
Fixpoint deep_keys (v : pyval) : list string :=
  match v with
  | PyDict d =>
      (fix go (d : list (string * pyval)) : list string :=
         match d with
         | [] => []
         | (k, x) :: d' => k :: deep_keys x ++ go d'
         end) d
  | _ => []
  end.

(** [d.get(k)] on a dict literal. *)
Fixpoint dict_get (d : list (string * pyval)) (k : string) : option pyval :=
  match d with
  | [] => None
  | (k', v) :: d' => if String.eqb k k' then Some v else dict_get d' k
  end.

(** ** Bytes as 8-bit integers *)

Definition byte_ok (b : Z) : Prop := 0 <= b < 256.
Definition ascii_byte (b : Z) : Prop := 0 <= b < 128.
Definition bytes_ok (bs : list Z) : Prop := Forall byte_ok bs.
Definition ascii_bytes (bs : list Z) : Prop := Forall ascii_byte bs.

(** ** Lemmas shared by the components *)

Lemma bind_Ok {A B} (a : A) (k : A -> result B) : bind (Ok a) k = k a.
Proof. reflexivity. Qed.

Lemma bind_Raise {A B} (e : exn) (k : A -> result B) : bind (Raise e) k = Raise e.
Proof. reflexivity. Qed.

Lemma bind_Ok_inv {A B} (c : result A) (k : A -> result B) b :
  bind c k = Ok b -> exists a, c = Ok a /\ k a = Ok b.
Proof. destruct c; simpl; [eauto | discriminate]. Qed.

Lemma bind_Raise_inv {A B} (c : result A) (k : A -> result B) e :
  bind c k = Raise e -> c = Raise e \/ exists a, c = Ok a /\ k a = Raise e.
Proof. destruct c; simpl; [eauto | intros [= ->]; auto]. Qed.

Lemma bind_assoc {A B C} (c : result A) (f : A -> result B) (g : B -> result C) :
  bind (bind c f) g = bind c (fun a => bind (f a) g).
Proof. by destruct c. Qed.

Lemma ok_or_spec {A} (d : A) (r : result A) : is_ok r = true -> r = Ok (ok_or d r).
Proof. destruct r; simpl; congruence. Qed.

Lemma length_str_repeat n c : String.length (str_repeat n c) = n.
Proof. induction n; simpl; congruence. Qed.

Lemma py_truthy_spec v :
  py_truthy v = true <-> exists s, v = Some s /\ s <> ""%string.
Proof.
  split.
  - destruct v as [[|c s]|]; simpl; intros H; try discriminate.
    eexists; split; [reflexivity | discriminate].
  - intros [s [-> Hs]]. destruct s; [congruence | reflexivity].
Qed.

Lemma py_truthy_Some s : s <> ""%string -> py_truthy (Some s) = true.
Proof. intros H. apply py_truthy_spec. eauto. Qed.

Lemma deep_keys_pystr_of v : deep_keys (pystr_of v) = [].
Proof. by destruct v. Qed.

Lemma deep_keys_pyint_of v : deep_keys (pyint_of v) = [].
Proof. by destruct v. Qed.

Lemma ascii_byte_ok b : ascii_byte b -> byte_ok b.
Proof. unfold ascii_byte, byte_ok. lia. Qed.

Lemma ascii_bytes_ok bs : ascii_bytes bs -> bytes_ok bs.
Proof. unfold ascii_bytes, bytes_ok. intros H. eapply Forall_impl; [exact H | apply ascii_byte_ok]. Qed.

Lemma bytes_ok_app bs1 bs2 : bytes_ok bs1 -> bytes_ok bs2 -> bytes_ok (bs1 ++ bs2).
Proof. apply Forall_app_2. Qed.

Lemma bytes_ok_take n bs : bytes_ok bs -> bytes_ok (take n bs).
Proof. apply Forall_take. Qed.

(** A byte built as [prefix | low] with [low] below the prefix's lowest
    set bit is [prefix + low]. *)
Lemma lor_low a x k : 0 <= k -> 0 <= x < 2 ^ k -> Z.lor (a * 2 ^ k) x = a * 2 ^ k + x.
Proof.
  intros Hk Hx. rewrite <- Z.shiftl_mul_pow2 by lia.
  assert (H0 : Z.land (Z.shiftl a k) x = 0).
  { apply Z.bits_inj'. intros n Hn. rewrite Z.land_spec, Z.bits_0.
    destruct (Z.lt_ge_cases n k) as [Hlt | Hge].
    - by rewrite Z.shiftl_spec_low.
    - rewrite <- (Z.mod_small x (2 ^ k)) by lia.
      rewrite Z.mod_pow2_bits_high by lia. apply andb_false_r. }
  rewrite <- Z.lxor_lor by exact H0. symmetry. by apply Z.add_nocarry_lxor.
Qed.

(** ** Sequences of attribute writes

    SQLAlchemy's declarative constructor [Model(k1=v1, k2=v2, ...)] performs
    [setattr(self, k, v)] for each keyword in order, and each write runs the
    hooks of its attribute; the first write that raises aborts the rest.
    [run_writes] is that loop over any model's one-write function. *)

Section Writes.
Context {S A : Type} (step : S -> A -> result S).

Fixpoint run_writes (s : S) (kw : list A) : result S :=
  match kw with
  | [] => Ok s
  | a :: kw' => s' <- step s a ;; run_writes s' kw'
  end.

(** A property that the writes [est] establish and the other writes
    preserve holds at the end of any sequence that starts in it or
    contains such a write. *)
Lemma run_writes_invariant (P : S -> Prop) (est : A -> bool) :
  (forall s a s', step s a = Ok s' -> if est a then P s' else (P s -> P s')) ->
  forall kw s s', run_writes s kw = Ok s' ->
  P s \/ Exists (fun a => est a = true) kw -> P s'.
Proof.
  intros Hstep kw. induction kw as [|a kw IH]; intros s s' E Hinit; simpl in E.
  - injection E as <-. destruct Hinit as [Hs | Hex]; [exact Hs | inversion Hex].
  - apply bind_Ok_inv in E as [s1 [E1 E]]. apply (IH s1 s' E).
    specialize (Hstep _ _ _ E1). destruct (est a) eqn:Ha; [by left|].
    destruct Hinit as [Hs | Hex]; [left; by apply Hstep|].
    inversion Hex as [? ? Hh | ? ? Hh]; subst; [congruence | by right].
Qed.

(** A field that none of the writes touches keeps its value. *)
Lemma run_writes_frame {B} (f : S -> B) (touches : A -> bool) :
  (forall s a s', touches a = false -> step s a = Ok s' -> f s' = f s) ->
  forall kw s s', Forall (fun a => touches a = false) kw ->
  run_writes s kw = Ok s' -> f s' = f s.
Proof.
  intros Hstep kw. induction kw as [|a kw IH]; intros s s' Hkw E; simpl in E.
  - by injection E as <-.
  - inversion Hkw as [|? ? Ha Hkw']; subst.
    apply bind_Ok_inv in E as [s1 [E1 E]].
    rewrite (IH s1 s' Hkw' E). by apply (Hstep s a).
Qed.
End Writes.

(** ** Automation *)

Create HintDb pymodel discriminated.
Create Rewrite HintDb pyrw.
#[export] Hint Resolve ascii_byte_ok ascii_bytes_ok bytes_ok_app bytes_ok_take py_truthy_Some : pymodel.
#[export] Hint Rewrite @bind_Ok @bind_Raise deep_keys_pystr_of deep_keys_pyint_of : pyrw.

(** Split every hypothesis [bind c k = Ok b] into its two steps. *)
Ltac py_inv :=
  repeat match goal with
  | H : bind _ _ = Ok _ |- _ =>
      let a := fresh "a" in let Ha := fresh "Ha" in
      apply bind_Ok_inv in H as [a [Ha H]]
  | H : Ok _ = Ok _ |- _ => injection H as H; subst
  | H : Raise _ = Ok _ |- _ => discriminate H
  | H : Ok _ = Raise _ |- _ => discriminate H
  end.

(** [lia] after naming the quotients and remainders by constants. *)
Ltac zlia := Z.div_mod_to_equations; lia.

(** Decide every integer comparison of the goal that [zlia] settles, and
    reduce the conditionals that become constant. *)
Ltac zbool :=
  repeat match goal with
  | |- context [?x <? ?y] =>
      first [rewrite (proj2 (Z.ltb_lt x y)) by zlia | rewrite (proj2 (Z.ltb_ge x y)) by zlia]
  | |- context [?x <=? ?y] =>
      first [rewrite (proj2 (Z.leb_le x y)) by zlia | rewrite (proj2 (Z.leb_gt x y)) by zlia]
  | |- context [?x =? ?y] =>
      first [rewrite (proj2 (Z.eqb_eq x y)) by zlia | rewrite (proj2 (Z.eqb_neq x y)) by zlia]
  end; cbv beta iota.
