(* ===== verification/Rowid.v ===== *)
(** * Rowid allocation of an INTEGER PRIMARY KEY

    Both tables of src/server/models.py declare
    [id = db.Column(db.Integer, primary_key=True)] (lines 10 and 52), which
    SQLite makes an alias of the rowid.  An INSERT that gives no id gets the
    rowid SQLite's [OP_NewRowid] chooses:
    - the table is empty: 1;
    - otherwise, the largest rowid plus one, unless the largest rowid is
      already [MAX_ROWID] (2^63 - 1);
    - in that case SQLite draws random 64-bit values [v], keeps
      [(v & (MAX_ROWID >> 1)) + 1] as a candidate and tries again while the
      candidate is taken, at most 100 draws ([while(... && ++cnt < 100)]);
      when all of them are taken the INSERT fails with [SQLITE_FULL], which
      the sqlite3 driver raises as [OperationalError].
    The random draws are an explicit argument [rnd : nat -> Z], the value
    of the [cnt]-th call of [sqlite3_randomness], as the bcrypt salt is an
    argument of the password write; every theorem holds for all draws.  The
    search loop is defined by well-founded recursion on [100 - cnt], the
    variant of the C loop. *)

From S2P Require Import Prelude.
From Equations Require Import Equations.

Module Rowid.

Definition int64_max : Z := 2 ^ 63 - 1.
Definition int64_ok (z : Z) : bool := (- 2 ^ 63 <=? z) && (z <=? int64_max).
Definition opt_int64_ok (v : option Z) : bool :=
  match v with Some z => int64_ok z | None => true end.

(** Every key of a table is a signed 64-bit integer. *)
Definition keys_int64 {A} (m : gmap Z A) : Prop :=
  map_Forall (fun k _ => int64_ok k = true) m.

Fixpoint list_max (l : list Z) : option Z :=
  match l with
  | [] => None
  | k :: l' => match list_max l' with
               | Some m => Some (Z.max k m)
               | None => Some k
               end
  end.

(** The largest rowid of a table ([sqlite3BtreeLast]). *)
Definition max_rowid {A} (m : gmap Z A) : option Z := list_max (fst <$> map_to_list m).

(** [v &= (MAX_ROWID>>1); v++]: a random draw made a positive candidate. *)
Definition rowid_candidate (v : Z) : Z := Z.land v (Z.shiftr int64_max 1) + 1.

(** The bound of the random search, [cnt < 100] in [OP_NewRowid]. *)
Definition rowid_attempts : nat := 100.

Definition sqlite_full : exn := OperationalError "database or disk is full".

Section RandomRowid.
Context {A : Type} (rnd : nat -> Z) (m : gmap Z A).

(** The [do { ... } while(taken && ++cnt < 100)] loop of [OP_NewRowid]. *)
Equations? random_rowid (cnt : nat) : result Z by wf (rowid_attempts - cnt)%nat lt :=
  random_rowid cnt with decide (is_Some (m !! rowid_candidate (rnd cnt))) => {
    | right _ := Ok (rowid_candidate (rnd cnt));
    | left _ with lt_dec (S cnt) rowid_attempts => {
        | left _ := random_rowid (S cnt);
        | right _ := Raise sqlite_full } }.
Proof. unfold rowid_attempts in *. lia. Qed.

End RandomRowid.

(** The rowid SQLite gives a row inserted without one. *)
Definition next_rowid {A} (rnd : nat -> Z) (m : gmap Z A) : result Z :=
  match max_rowid m with
  | None => Ok 1
  | Some k => if k <? int64_max then Ok (k + 1) else random_rowid rnd m 0
  end.

(** The rowid of an inserted row: the given id, or the next one. *)
Definition assign_rowid {A} (rnd : nat -> Z) (table : string) (m : gmap Z A)
    (v : option Z) : result Z :=
  match v with
  | Some i =>
      if negb (int64_ok i) then
        Raise (OverflowError "Python int too large to convert to SQLite INTEGER")
      else if bool_decide (is_Some (m !! i)) then
        Raise (IntegrityError ("UNIQUE constraint failed: " ++ table ++ ".id"))
      else Ok i
  | None => next_rowid rnd m
  end.

(** ** The largest rowid *)

Lemma list_max_None l : list_max l = None -> l = [].
Proof. destruct l as [|x l]; simpl; [done|]. by destruct (list_max l). Qed.

Lemma list_max_ge l m k : list_max l = Some m -> k ∈ l -> k <= m.
Proof.
  revert m. induction l as [|x l IH]; intros m Hm Hk; [inversion Hk|]. simpl in Hm.
  apply elem_of_cons in Hk.
  destruct (list_max l) as [m'|] eqn:Hl; injection Hm as <-.
  - destruct Hk as [-> | Hk]; [lia|]. specialize (IH m' eq_refl Hk). lia.
  - destruct Hk as [-> | Hk]; [lia|]. apply list_max_None in Hl. subst. inversion Hk.
Qed.

Lemma max_rowid_ge {A} (m : gmap Z A) k x mx :
  max_rowid m = Some mx -> m !! k = Some x -> k <= mx.
Proof.
  intros Hm Hk. apply (list_max_ge _ _ _ Hm). apply list_elem_of_fmap.
  exists (k, x). split; [done|]. by apply elem_of_map_to_list.
Qed.

Lemma max_rowid_None {A} (m : gmap Z A) k : max_rowid m = None -> m !! k = None.
Proof.
  intros Hm%list_max_None. apply fmap_nil_inv in Hm. apply map_to_list_empty_iff in Hm.
  subst m. apply lookup_empty.
Qed.

Lemma list_max_elem l m : list_max l = Some m -> m ∈ l.
Proof.
  revert m. induction l as [|x l IH]; intros m Hm; simpl in Hm; [discriminate|].
  destruct (list_max l) as [m'|]; injection Hm as <-; [|by left].
  destruct (Z.max_spec x m') as [[_ ->] | [_ ->]]; [right; by apply IH | by left].
Qed.

Lemma max_rowid_elem {A} (m : gmap Z A) mx :
  max_rowid m = Some mx -> exists x, m !! mx = Some x.
Proof.
  intros Hm%list_max_elem. apply list_elem_of_fmap in Hm as [[k x] [-> Hk]].
  apply elem_of_map_to_list in Hk. eauto.
Qed.

Lemma max_rowid_delete_prev {A} (m : gmap Z A) uid :
  (forall j x, m !! j = Some x -> j <= uid) -> is_Some (m !! (uid - 1)) ->
  max_rowid (delete uid m) = Some (uid - 1).
Proof.
  intros Hle [y Hy].
  assert (Hy' : delete uid m !! (uid - 1) = Some y) by (rewrite lookup_delete_ne by lia; done).
  destruct (max_rowid (delete uid m)) as [k|] eqn:Hm.
  - destruct (max_rowid_elem _ _ Hm) as [x Hx].
    apply lookup_delete_Some in Hx as [Hne Hx]. apply Hle in Hx.
    pose proof (max_rowid_ge _ _ _ _ Hm Hy'). f_equal. lia.
  - by rewrite (max_rowid_None _ (uid - 1) Hm) in Hy'.
Qed.

(** ** The random search *)

Lemma rowid_candidate_range v : 1 <= rowid_candidate v <= 2 ^ 62.
Proof.
  unfold rowid_candidate. change (Z.shiftr int64_max 1) with (Z.ones 62).
  rewrite Z.land_ones by lia. pose proof (Z.mod_pos_bound v (2 ^ 62)). lia.
Qed.

Section RandomRowidFacts.
Context {A : Type} (m : gmap Z A).

(** One turn of the loop, as the C code reads. *)
Lemma random_rowid_step rnd cnt :
  random_rowid rnd m cnt =
    if bool_decide (is_Some (m !! rowid_candidate (rnd cnt))) then
      if bool_decide (S cnt < rowid_attempts)%nat then random_rowid rnd m (S cnt)
      else Raise sqlite_full
    else Ok (rowid_candidate (rnd cnt)).
Proof.
  funelim (random_rowid rnd m cnt); repeat case_bool_decide;
    solve [reflexivity | contradiction | lia].
Qed.

Lemma random_rowid_Ok rnd cnt k :
  (cnt < rowid_attempts)%nat -> random_rowid rnd m cnt = Ok k ->
  m !! k = None /\
  exists j, (cnt <= j < rowid_attempts)%nat /\ k = rowid_candidate (rnd j).
Proof.
  funelim (random_rowid rnd m cnt); intros Hc E; try discriminate.
  - injection E as <-. split; [by apply eq_None_not_Some|]. exists cnt. split; [lia|done].
  - destruct (H k l E) as [Hk [j [Hj ->]]]. split; [done|]. exists j. split; [lia|done].
Qed.

Lemma random_rowid_Raise rnd cnt e :
  (cnt < rowid_attempts)%nat -> random_rowid rnd m cnt = Raise e ->
  e = sqlite_full /\
  forall j, (cnt <= j < rowid_attempts)%nat -> is_Some (m !! rowid_candidate (rnd j)).
Proof.
  funelim (random_rowid rnd m cnt); intros Hc E; try discriminate.
  - destruct (H e l E) as [-> Hall]. split; [done|]. intros j Hj.
    destruct (decide (j = cnt)) as [->|]; [done|]. apply Hall. lia.
  - injection E as <-. split; [done|]. intros j Hj.
    assert (j = cnt) as -> by lia. done.
Qed.

Lemma random_rowid_full rnd cnt :
  (forall j, (cnt <= j < rowid_attempts)%nat -> is_Some (m !! rowid_candidate (rnd j))) ->
  (cnt < rowid_attempts)%nat -> random_rowid rnd m cnt = Raise sqlite_full.
Proof.
  funelim (random_rowid rnd m cnt); intros Hall Hc.
  - exfalso. apply n, Hall. lia.
  - apply H; [intros j Hj; apply Hall; lia | done].
  - reflexivity.
Qed.

Lemma random_rowid_agree rnd rnd' cnt :
  (forall j, (cnt <= j < rowid_attempts)%nat -> rnd j = rnd' j) ->
  (cnt < rowid_attempts)%nat -> random_rowid rnd m cnt = random_rowid rnd' m cnt.
Proof.
  funelim (random_rowid rnd m cnt); intros Hag Hc;
    rewrite (random_rowid_step rnd' cnt), <- (Hag cnt) by lia;
    repeat case_bool_decide; try solve [reflexivity | contradiction | lia].
  apply H; [intros j Hj; apply Hag; lia | done].
Qed.

End RandomRowidFacts.

Lemma rowid_attempts_pos : (0 < rowid_attempts)%nat.
Proof. unfold rowid_attempts. lia. Qed.

Lemma next_rowid_random {A} (m : gmap Z A) rnd :
  max_rowid m = Some int64_max -> next_rowid rnd m = random_rowid rnd m 0.
Proof. intros Hm. unfold next_rowid. by rewrite Hm, Z.ltb_irrefl. Qed.

Lemma next_rowid_Ok_cases {A} (m : gmap Z A) rnd k :
  next_rowid rnd m = Ok k ->
  (max_rowid m = None /\ k = 1) \/
  (exists mx, max_rowid m = Some mx /\ mx < int64_max /\ k = mx + 1) \/
  (exists mx, max_rowid m = Some mx /\ int64_max <= mx /\
              m !! k = None /\ 1 <= k <= 2 ^ 62).
Proof.
  unfold next_rowid. destruct (max_rowid m) as [mx|] eqn:Hm; [|intros [= <-]; by left].
  destruct (mx <? int64_max) eqn:Hlt.
  - intros [= <-]. right; left. exists mx. by rewrite Z.ltb_lt in Hlt.
  - intros E. destruct (random_rowid_Ok m rnd 0 k rowid_attempts_pos E) as [Hk [j [_ ->]]].
    right; right. exists mx. rewrite Z.ltb_ge in Hlt.
    pose proof (rowid_candidate_range (rnd j)). repeat split; solve [done | lia].
Qed.

(** The rowid SQLite picks is free and inside the 64-bit range. *)
Lemma next_rowid_fresh {A} (m : gmap Z A) rnd k :
  keys_int64 m -> next_rowid rnd m = Ok k -> m !! k = None /\ int64_ok k = true.
Proof.
  intros Hkeys E. unfold int64_ok, int64_max.
  destruct (next_rowid_Ok_cases m rnd k E) as [[Hm ->] | [[mx (Hm & Hlt & ->)] | [mx (_ & _ & Hk & Hr)]]].
  - split; [by apply max_rowid_None | reflexivity].
  - destruct (max_rowid_elem _ _ Hm) as [x Hx].
    pose proof (Hkeys _ _ Hx) as Hmx. unfold int64_ok, int64_max in *.
    apply andb_prop in Hmx as [H1 _]. apply Z.leb_le in H1. split.
    + destruct (m !! (mx + 1)) as [y|] eqn:Hy; [|done].
      apply (max_rowid_ge _ _ _ _ Hm) in Hy. lia.
    + apply andb_true_intro; split; apply Z.leb_le; lia.
  - split; [done|]. apply andb_true_intro; split; apply Z.leb_le; lia.
Qed.

Lemma assign_rowid_fresh {A} rnd table (m : gmap Z A) v k :
  keys_int64 m -> assign_rowid rnd table m v = Ok k ->
  m !! k = None /\ int64_ok k = true /\ (forall i, v = Some i -> k = i).
Proof.
  intros Hkeys. destruct v as [i|]; simpl.
  - destruct (int64_ok i) eqn:Hi; simpl; [|discriminate].
    case_bool_decide as Hs; [discriminate|]. intros [= <-].
    split; [by apply eq_None_not_Some | split; [done | by intros ? [= ->]]].
  - intros Hn. destruct (next_rowid_fresh m rnd k Hkeys Hn). by split; [|split].
Qed.

(** ** Properties of the rowid allocation *)

(** C29: the search for a free rowid terminates within 100 draws: an
    INSERT reads at most the first 100 random values, so two draw
    sequences that agree on them give the same rowid or the same error. *)
Theorem next_rowid_draws_bounded {A} (m : gmap Z A) rnd rnd' :
  (forall j, (j < rowid_attempts)%nat -> rnd j = rnd' j) ->
  next_rowid rnd m = next_rowid rnd' m.
Proof.
  intros Hag. unfold next_rowid. destruct (max_rowid m) as [k|]; [|done].
  destruct (k <? int64_max); [done|].
  apply random_rowid_agree; [intros j Hj; apply Hag; lia | exact rowid_attempts_pos].
Qed.

(** C30: once the table holds the largest rowid 2^63 - 1, an INSERT
    without an id fails with [SQLITE_FULL] ([OperationalError]) exactly
    when all 100 random candidates are taken. *)
Theorem next_rowid_full {A} (m : gmap Z A) rnd :
  max_rowid m = Some int64_max ->
  next_rowid rnd m = Raise sqlite_full <->
  forall j, (j < rowid_attempts)%nat -> is_Some (m !! rowid_candidate (rnd j)).
Proof.
  intros Hm. rewrite (next_rowid_random m rnd Hm). split.
  - intros E j Hj. apply (random_rowid_Raise m rnd 0 _ rowid_attempts_pos E). lia.
  - intros Hall. apply random_rowid_full; [intros j Hj; apply Hall; lia | exact rowid_attempts_pos].
Qed.

(** C31: a rowid SQLite picks is free, a signed 64-bit integer, and, once
    the largest rowid has been used, a random one in [1, 2^62]. *)
Theorem next_rowid_fresh_bounds {A} (m : gmap Z A) rnd k :
  keys_int64 m -> next_rowid rnd m = Ok k ->
  m !! k = None /\ int64_ok k = true /\
  (max_rowid m = Some int64_max -> 1 <= k <= 2 ^ 62).
Proof.
  intros Hkeys E. destruct (next_rowid_fresh m rnd k Hkeys E) as [Hk Hi].
  split; [done | split; [done|]]. intros Hm.
  destruct (next_rowid_Ok_cases m rnd k E) as [[Hm' _] | [[mx (Hm' & Hlt & _)] | [mx (_ & _ & _ & Hr)]]];
    [congruence | | done].
  rewrite Hm in Hm'. injection Hm' as <-. lia.
Qed.

End Rowid.

(** ** The rowid allocation on a table that has used the largest rowid *)

Module RowidExamples.
Import Rowid.

(** A table holding the rows 1..100 and the row 2^63 - 1. *)
Definition full_table : gmap Z unit :=
  <[int64_max := tt]> (list_to_map ((fun k => (Z.of_nat k + 1, tt)) <$> seq 0 100)).

(** Draws whose candidates are 1, 2, 3, ...: all of the first 100 taken. *)
Definition counting_draws (n : nat) : Z := Z.of_nat n.
(** The same first 100 draws, then constant. *)
Definition cut_draws (n : nat) : Z := if (n <? 100)%nat then Z.of_nat n else 7.
(** Draws whose candidates are 151, 152, ...: the first one is free. *)
Definition high_draws (n : nat) : Z := Z.of_nat n + 150.

Lemma candidates_taken rnd n :
  Forall (fun i => is_Some (full_table !! rowid_candidate (rnd i))) (seq 0 n) ->
  forall i, (i < n)%nat -> is_Some (full_table !! rowid_candidate (rnd i)).
Proof. rewrite Forall_seq. intros H i Hi. apply H. lia. Qed.

Lemma full_table_max : max_rowid full_table = Some int64_max.
Proof. vm_compute. reflexivity. Qed.

Lemma next_rowid_draws_bounded_witness :
  next_rowid counting_draws full_table = next_rowid cut_draws full_table.
Proof.
  apply next_rowid_draws_bounded. intros j Hj. unfold cut_draws, rowid_attempts in *.
  by rewrite (proj2 (Nat.ltb_lt j 100) Hj).
Defined.

Lemma next_rowid_full_witness :
  next_rowid counting_draws full_table = Raise sqlite_full.
Proof.
  apply (next_rowid_full full_table counting_draws full_table_max).
  apply candidates_taken. apply (bool_decide_unpack _). vm_compute. reflexivity.
Defined.

Lemma next_rowid_fresh_bounds_witness :
  full_table !! 151 = None /\ int64_ok 151 = true /\
  (max_rowid full_table = Some int64_max -> 1 <= 151 <= 2 ^ 62).
Proof.
  apply (next_rowid_fresh_bounds full_table high_draws 151).
  - apply (bool_decide_unpack _). vm_compute. reflexivity.
  - vm_compute. reflexivity.
Defined.

End RowidExamples.
