(* ===== verification/Utf8.v ===== *)
(** * UTF-8 encoding of Python strings

    [str.encode('utf-8')] and [bytes.decode('utf-8')], used by models.py
    lines 27 and 31 on the bcrypt hash and by flask_bcrypt on the password.
    A character is a Rocq [ascii], i.e. a code point in 0..255; it encodes
    to one byte below 128 and to two bytes ([110xxxxx 10xxxxxx]) above.
    Decoding accepts exactly the encodings of such strings: it returns
    [None] on malformed input and on code points above 255, which the
    string type cannot hold. *)

From S2P Require Import Prelude.

Definition code_point (c : ascii) : Z := Z.of_N (N_of_ascii c).

Definition char_of_code (z : Z) : ascii := ascii_of_N (Z.to_N z).

Definition utf8_encode_char (c : ascii) : list Z :=
  let n := code_point c in
  if n <? 128 then [n]
  else [Z.lor 192 (Z.shiftr n 6); Z.lor 128 (Z.land n 63)].

Fixpoint utf8_encode (s : string) : list Z :=
  match s with
  | EmptyString => []
  | String c s' => utf8_encode_char c ++ utf8_encode s'
  end.

(** The decoder's tests on a two-byte sequence [b b2]: [b] is a lead byte
    [110xxxxx], [b2] a continuation byte [10xxxxxx], and the code point they
    carry is not overlong (at least 128) and fits a character. *)
Definition utf8_lead2 (b : Z) : bool :=
  (0 <=? b) && (b <? 256) && (Z.land b 224 =? 192).

Definition utf8_pair_cp (b b2 : Z) : Z :=
  Z.lor (Z.shiftl (Z.land b 31) 6) (Z.land b2 63).

Definition utf8_pair_ok (b b2 : Z) : bool :=
  (0 <=? b2) && (b2 <? 256) && (Z.land b2 192 =? 128)
  && (128 <=? utf8_pair_cp b b2) && (utf8_pair_cp b b2 <? 256).

Fixpoint utf8_decode (bs : list Z) : option string :=
  match bs with
  | [] => Some EmptyString
  | b :: rest =>
      if (0 <=? b) && (b <? 128) then
        match utf8_decode rest with
        | Some s => Some (String (char_of_code b) s)
        | None => None
        end
      else if utf8_lead2 b then
        match rest with
        | b2 :: rest' =>
            if utf8_pair_ok b b2 then
              match utf8_decode rest' with
              | Some s => Some (String (char_of_code (utf8_pair_cp b b2)) s)
              | None => None
              end
            else None
        | [] => None
        end
      else None
  end.

(** A string whose characters are all below 128. *)
Fixpoint ascii_str (s : string) : Prop :=
  match s with
  | EmptyString => True
  | String c s' => code_point c < 128 /\ ascii_str s'
  end.

(** ** Per-character facts, checked over the 256 characters *)

Lemma utf8_encode_char_bytes c : bytes_ok (utf8_encode_char c).
Proof.
  unfold bytes_ok, byte_ok.
  destruct c as [[] [] [] [] [] [] [] []]; vm_compute; repeat constructor; discriminate.
Qed.

Lemma utf8_decode_encode_char c rest :
  utf8_decode (utf8_encode_char c ++ rest) =
  match utf8_decode rest with Some s => Some (String c s) | None => None end.
Proof. destruct c as [[] [] [] [] [] [] [] []]; reflexivity. Qed.

Lemma utf8_encode_char_length c :
  length (utf8_encode_char c) = if code_point c <? 128 then 1%nat else 2%nat.
Proof. unfold utf8_encode_char. destruct (code_point c <? 128); reflexivity. Qed.

Lemma code_point_range c : 0 <= code_point c < 256.
Proof.
  unfold code_point. pose proof (N_ascii_bounded c). lia.
Qed.

Lemma char_of_code_point c : char_of_code (code_point c) = c.
Proof. unfold char_of_code, code_point. rewrite N2Z.id. apply ascii_N_embedding. Qed.

Lemma code_point_of_char z : 0 <= z < 256 -> code_point (char_of_code z) = z.
Proof.
  intros Hz. unfold char_of_code, code_point.
  rewrite N_ascii_embedding by lia. lia.
Qed.

(** The reference encoding of one character, by arithmetic instead of bit
    operations: [110] and the top two bits, [10] and the low six. *)
Definition utf8_encode_char_ref (c : ascii) : list Z :=
  let n := code_point c in
  if n <? 128 then [n] else [192 + n / 64; 128 + n mod 64].

(** The bytes [0..255], for checking a fact about bytes by evaluation. *)
Definition byte_range : list Z := map Z.of_nat (seq 0 256).

(** ** Strings *)

(** Number of characters of [s] that need two bytes. *)
Fixpoint high_chars (s : string) : nat :=
  match s with
  | EmptyString => 0
  | String c s' => (if code_point c <? 128 then 0 else 1) + high_chars s'
  end.

Lemma utf8_encode_app s1 s2 :
  utf8_encode (s1 ++ s2)%string = utf8_encode s1 ++ utf8_encode s2.
Proof. induction s1 as [|c s1 IH]; simpl; [reflexivity|]. by rewrite IH, app_assoc. Qed.

(** Decoding the UTF-8 encoding of a string gives the string back
    ([s.encode('utf-8').decode('utf-8') == s]). *)
Lemma utf8_decode_encode s : utf8_decode (utf8_encode s) = Some s.
Proof.
  induction s as [|c s IH]; [reflexivity|].
  simpl. by rewrite utf8_decode_encode_char, IH.
Qed.

Lemma utf8_encode_bytes s : bytes_ok (utf8_encode s).
Proof.
  induction s as [|c s IH]; simpl; [constructor|].
  apply bytes_ok_app; [apply utf8_encode_char_bytes | exact IH].
Qed.

Lemma length_utf8_encode s :
  length (utf8_encode s) = (String.length s + high_chars s)%nat.
Proof.
  induction s as [|c s IH]; simpl; [reflexivity|].
  rewrite length_app, utf8_encode_char_length, IH.
  destruct (code_point c <? 128); lia.
Qed.

Lemma utf8_encode_injective s1 s2 : utf8_encode s1 = utf8_encode s2 -> s1 = s2.
Proof.
  intros H. apply (f_equal utf8_decode) in H.
  rewrite !utf8_decode_encode in H. congruence.
Qed.

(** A byte string of ASCII bytes decodes, and encoding the result gives
    the bytes back: this is what [.decode('utf-8')] followed by
    [.encode('utf-8')] does to a bcrypt hash. *)
Lemma utf8_decode_ascii bs :
  ascii_bytes bs -> exists s, utf8_decode bs = Some s /\ utf8_encode s = bs.
Proof.
  induction 1 as [|b bs Hb Hbs IH]; [exists EmptyString; done|].
  destruct IH as [s [Hd He]]. unfold ascii_byte in Hb.
  exists (String (char_of_code b) s). simpl.
  replace ((0 <=? b) && (b <? 128)) with true by (symmetry; apply andb_true_iff; lia).
  rewrite Hd. split; [reflexivity|].
  unfold utf8_encode_char. rewrite code_point_of_char by lia.
  replace (b <? 128) with true by lia. simpl. by rewrite He.
Qed.

(** ** Decoding inverts encoding *)

(** A boolean fact about bytes that evaluates to [true] on all 256 of them
    holds of every byte. *)
Lemma forall_bytes (P : Z -> bool) :
  forallb P byte_range = true -> forall b, 0 <= b < 256 -> P b = true.
Proof.
  intros H b Hb. rewrite forallb_forall in H. apply H.
  apply in_map_iff. exists (Z.to_nat b). split; [lia|]. apply in_seq. lia.
Qed.

(** The two bytes the decoder accepts are the encoding of the character
    it returns: checked over all 65536 pairs. *)
Lemma utf8_pair_encode b b2 :
  utf8_lead2 b = true -> utf8_pair_ok b b2 = true ->
  utf8_encode_char (char_of_code (utf8_pair_cp b b2)) = [b; b2].
Proof.
  intros Hb Hp.
  assert (Hall : forall b, 0 <= b < 256 ->
    forallb (fun b2 => implb (utf8_lead2 b && utf8_pair_ok b b2)
      (bool_decide (utf8_encode_char (char_of_code (utf8_pair_cp b b2)) = [b; b2])))
      byte_range = true).
  { apply forall_bytes. vm_compute. reflexivity. }
  pose proof Hb as Hb'. unfold utf8_lead2 in Hb'.
  apply andb_prop in Hb' as [Hb' _]. apply andb_prop in Hb' as [H0 H1].
  pose proof Hp as Hp'. unfold utf8_pair_ok in Hp'.
  apply andb_prop in Hp' as [Hp' _]. apply andb_prop in Hp' as [Hp' _].
  apply andb_prop in Hp' as [Hp' _]. apply andb_prop in Hp' as [H2 H3].
  apply Z.leb_le in H0, H2. apply Z.ltb_lt in H1, H3.
  pose proof (forall_bytes _ (Hall b (conj H0 H1)) b2 (conj H2 H3)) as H.
  rewrite Hb, Hp in H. simpl in H. by apply bool_decide_eq_true in H.
Qed.

Lemma utf8_encode_decode_bounded n bs s :
  (length bs <= n)%nat -> utf8_decode bs = Some s -> utf8_encode s = bs.
Proof.
  revert bs s. induction n as [|n IH]; intros [|b rest] s Hl Hd; simpl in *;
    try (injection Hd as <-; reflexivity); try lia.
  destruct ((0 <=? b) && (b <? 128)) eqn:Ha.
  - destruct (utf8_decode rest) as [s'|] eqn:Hr; [|discriminate]. injection Hd as <-.
    apply andb_prop in Ha as [Ha1 Ha2]. apply Z.leb_le in Ha1. apply Z.ltb_lt in Ha2.
    simpl. unfold utf8_encode_char. rewrite code_point_of_char by lia.
    replace (b <? 128) with true by lia. simpl. f_equal. apply IH; [lia | exact Hr].
  - destruct (utf8_lead2 b) eqn:Hb; [|discriminate].
    destruct rest as [|b2 rest']; [discriminate|].
    destruct (utf8_pair_ok b b2) eqn:Hp; [|discriminate].
    destruct (utf8_decode rest') as [s'|] eqn:Hr; [|discriminate]. injection Hd as <-.
    simpl. rewrite utf8_pair_encode by assumption. simpl. f_equal. f_equal.
    apply IH; [simpl in Hl; lia | exact Hr].
Qed.

(** C23: [bytes.decode('utf-8')] accepts exactly the UTF-8 encodings of
    strings: it returns [s] on [bs] if and only if [bs] is the encoding of
    [s], so malformed and overlong sequences are rejected. *)
Theorem utf8_decode_iff bs s : utf8_decode bs = Some s <-> utf8_encode s = bs.
Proof.
  split.
  - apply (utf8_encode_decode_bounded (length bs)). lia.
  - intros <-. apply utf8_decode_encode.
Qed.

(** The bit-operation encoder agrees with the arithmetic reference
    encoding on every string. *)
Theorem utf8_encode_ref s :
  utf8_encode s = concat (map utf8_encode_char_ref (String.list_ascii_of_string s)).
Proof.
  induction s as [|c s IH]; [reflexivity|]. simpl. rewrite IH. f_equal.
  destruct c as [[] [] [] [] [] [] [] []]; reflexivity.
Qed.
