(* ===== verification/Unicode.v ===== *)
(** * UTF-8 over all of Unicode: the encoder the password functions call

    [Utf8] models [str.encode('utf-8')] and [bytes.decode('utf-8')] on Rocq
    strings, whose characters are the code points 0..255.  A Python [str]
    holds any code point 0..0x10FFFF, lone surrogates (0xD800..0xDFFF)
    included, e.g. from a JSON body with a ["\ud800"] escape.  This file
    models a [str] as its list of code points ([pystr]) and
    [str.encode('utf-8')] as CPython performs it
    (Objects/stringlib/codecs.h, [utf8_encoder], errors ['strict']): one
    to four bytes per code point, written with bit operations, and
    [UnicodeEncodeError] on a surrogate.  flask_bcrypt's
    [generate_password_hash] and [check_password_hash] (file [Bcrypt]) call
    it on the password, so the [User] password operations take a [pystr].

    CPython's strict decoder [utf8_decode] is written here too, but only as
    the inverse of the encoder: [decode_encode] makes the encoder injective
    on valid code points ([encode_inj]), which the exactness of
    [authenticate] on short passwords needs.  The decode at models.py line
    27 is [Utf8.utf8_decode], on the ASCII hash.  The file also shows that
    the encoder raises exactly on surrogates and agrees with
    [Utf8.utf8_encode] on Latin-1 strings ([encode_of_string]), through
    which the [User] theorems stated on Rocq strings are instances of the
    full codec. *)

From S2P Require Import Prelude Utf8.

Module Unicode.

(** A Python [str], as its code points. *)
Definition pystr : Type := list Z.

(** The invariant of a [str]: every code point is in 0..0x10FFFF. *)
Definition valid_cp (c : Z) : Prop := 0 <= c <= 0x10FFFF.

(** [Py_UNICODE_IS_SURROGATE]. *)
Definition is_surrogate (c : Z) : bool := (0xD800 <=? c) && (c <=? 0xDFFF).

(** The error of the ['strict'] handler on a surrogate. *)
Definition surrogate_error : exn :=
  UnicodeEncodeError "'utf-8' codec can't encode character: surrogates not allowed".

(** One code point of [utf8_encoder]. *)
Definition encode_char (ch : Z) : result (list Z) :=
  if ch <? 0x80 then Ok [ch]
  else if ch <? 0x0800 then
    Ok [Z.lor 0xC0 (Z.shiftr ch 6); Z.lor 0x80 (Z.land ch 0x3F)]
  else if is_surrogate ch then Raise surrogate_error
  else if ch <? 0x10000 then
    Ok [Z.lor 0xE0 (Z.shiftr ch 12); Z.lor 0x80 (Z.land (Z.shiftr ch 6) 0x3F);
        Z.lor 0x80 (Z.land ch 0x3F)]
  else
    Ok [Z.lor 0xF0 (Z.shiftr ch 18); Z.lor 0x80 (Z.land (Z.shiftr ch 12) 0x3F);
        Z.lor 0x80 (Z.land (Z.shiftr ch 6) 0x3F); Z.lor 0x80 (Z.land ch 0x3F)].

(** [str.encode('utf-8')]: the first surrogate raises. *)
Fixpoint encode (s : pystr) : result (list Z) :=
  match s with
  | [] => Ok []
  | ch :: s' => b <- encode_char ch ;; bs <- encode s' ;; Ok (b ++ bs)
  end.

(** [IS_CONTINUATION_BYTE]. *)
Definition is_cont (b : Z) : bool := (0x80 <=? b) && (b <? 0xC0).

(** The second byte after a three-byte lead: no overlong form
    ([\xE0] needs [\xA0..]) and no surrogate ([\xED] needs [..\x9F]). *)
Definition second3_ok (ch ch2 : Z) : bool :=
  is_cont ch2 && negb (if ch2 <? 0xA0 then ch =? 0xE0 else ch =? 0xED).

(** The second byte after a four-byte lead: no overlong form ([\xF0]
    needs [\x90..]) and nothing above 0x10FFFF ([\xF4] needs [..\x8F]). *)
Definition second4_ok (ch ch2 : Z) : bool :=
  is_cont ch2 && negb (if ch2 <? 0x90 then ch =? 0xF0 else ch =? 0xF4).

Definition cp2 (ch ch2 : Z) : Z := Z.shiftl ch 6 + ch2 - (Z.shiftl 0xC0 6 + 0x80).
Definition cp3 (ch ch2 ch3 : Z) : Z :=
  Z.shiftl ch 12 + Z.shiftl ch2 6 + ch3 - (Z.shiftl 0xE0 12 + Z.shiftl 0x80 6 + 0x80).
Definition cp4 (ch ch2 ch3 ch4 : Z) : Z :=
  Z.shiftl ch 18 + Z.shiftl ch2 12 + Z.shiftl ch3 6 + ch4 -
  (Z.shiftl 0xF0 18 + Z.shiftl 0x80 12 + Z.shiftl 0x80 6 + 0x80).

Definition invalid_start : exn := UnicodeDecodeError "invalid start byte".
Definition invalid_cont : exn := UnicodeDecodeError "invalid continuation byte".
Definition end_of_data : exn := UnicodeDecodeError "unexpected end of data".

(** [bytes.decode('utf-8')]. *)
Fixpoint decode (bs : list Z) : result pystr :=
  match bs with
  | [] => Ok []
  | ch :: rest =>
      if ch <? 0x80 then s <- decode rest ;; Ok (ch :: s)
      else if ch <? 0xC2 then Raise invalid_start
      else if ch <? 0xE0 then
        match rest with
        | ch2 :: rest' =>
            if is_cont ch2 then s <- decode rest' ;; Ok (cp2 ch ch2 :: s)
            else Raise invalid_cont
        | [] => Raise end_of_data
        end
      else if ch <? 0xF0 then
        match rest with
        | ch2 :: ch3 :: rest' =>
            if negb (second3_ok ch ch2) then Raise invalid_cont
            else if negb (is_cont ch3) then Raise invalid_cont
            else s <- decode rest' ;; Ok (cp3 ch ch2 ch3 :: s)
        | [ch2] => if second3_ok ch ch2 then Raise end_of_data else Raise invalid_cont
        | [] => Raise end_of_data
        end
      else if ch <? 0xF5 then
        match rest with
        | ch2 :: ch3 :: ch4 :: rest' =>
            if negb (second4_ok ch ch2) then Raise invalid_cont
            else if negb (is_cont ch3) then Raise invalid_cont
            else if negb (is_cont ch4) then Raise invalid_cont
            else s <- decode rest' ;; Ok (cp4 ch ch2 ch3 ch4 :: s)
        | [ch2; ch3] =>
            if negb (second4_ok ch ch2) then Raise invalid_cont
            else if negb (is_cont ch3) then Raise invalid_cont
            else Raise end_of_data
        | [ch2] => if second4_ok ch ch2 then Raise end_of_data else Raise invalid_cont
        | [] => Raise end_of_data
        end
      else Raise invalid_start
  end.

(** The Rocq string [s] as a Python [str]. *)
Definition of_string (s : string) : pystr := map code_point (String.list_ascii_of_string s).

(** ** The encoder in arithmetic form *)

(** A lead byte [prefix | (ch >> k)] whose prefix sits above the bits
    of [ch >> k]. *)
Lemma lead_byte p n k ch : 0 <= n -> 0 <= k -> p mod 2 ^ n = 0 -> 0 <= ch < 2 ^ (k + n) ->
  Z.lor p (ch / 2 ^ k) = p + ch / 2 ^ k.
Proof.
  intros Hn Hk Hp Hch.
  rewrite (Z.div_mod p (2 ^ n)), Hp, Z.add_0_r, Z.mul_comm by lia. apply lor_low; [lia|].
  split; [apply Z.div_pos; lia|]. apply Z.div_lt_upper_bound; [lia|].
  rewrite <- Z.pow_add_r by lia. lia.
Qed.

(** A continuation byte [0x80 | (x & 0x3F)]. *)
Lemma cont_byte x : Z.lor 0x80 (Z.land x 0x3F) = 128 + x mod 64.
Proof.
  change 0x3F with (Z.ones 6). rewrite Z.land_ones by lia.
  exact (lor_low 2 (x mod 2 ^ 6) 6 ltac:(lia) (Z.mod_pos_bound x (2 ^ 6) ltac:(lia))).
Qed.

Lemma encode_char_arith ch :
  0 <= ch <= 0x10FFFF ->
  encode_char ch =
    if ch <? 0x80 then Ok [ch]
    else if ch <? 0x0800 then Ok [192 + ch / 64; 128 + ch mod 64]
    else if is_surrogate ch then Raise surrogate_error
    else if ch <? 0x10000 then
      Ok [224 + ch / 4096; 128 + (ch / 64) mod 64; 128 + ch mod 64]
    else Ok [240 + ch / 262144; 128 + (ch / 4096) mod 64; 128 + (ch / 64) mod 64;
             128 + ch mod 64].
Proof.
  intros Hch. unfold encode_char. rewrite !cont_byte, !(Z.shiftr_div_pow2 ch) by lia.
  destruct (Z.ltb_spec ch 0x80); [done|]. destruct (Z.ltb_spec ch 0x0800).
  { by rewrite (lead_byte 192 5 6 ch) by (reflexivity || lia || (change (2 ^ (6 + 5)) with 2048; lia)). }
  destruct (is_surrogate ch); [done|]. destruct (Z.ltb_spec ch 0x10000).
  - by rewrite (lead_byte 224 4 12 ch) by (reflexivity || lia || (change (2 ^ (12 + 4)) with 65536; lia)).
  - by rewrite (lead_byte 240 3 18 ch) by (reflexivity || lia || (change (2 ^ (18 + 3)) with 2097152; lia)).
Qed.

Lemma is_cont_spec b : is_cont b = true <-> 128 <= b < 192.
Proof. unfold is_cont. rewrite andb_true_iff, Z.leb_le, Z.ltb_lt. lia. Qed.

Lemma is_surrogate_spec c : is_surrogate c = true <-> 55296 <= c <= 57343.
Proof. unfold is_surrogate. rewrite andb_true_iff, !Z.leb_le. lia. Qed.

Lemma second3_ok_spec ch ch2 :
  second3_ok ch ch2 = true <->
  128 <= ch2 < 192 /\ (ch = 224 -> 160 <= ch2) /\ (ch = 237 -> ch2 < 160).
Proof.
  unfold second3_ok. rewrite andb_true_iff, is_cont_spec, negb_true_iff.
  destruct (Z.ltb_spec ch2 0xA0); [destruct (Z.eqb_spec ch 0xE0) | destruct (Z.eqb_spec ch 0xED)];
    split; intros; repeat split; try discriminate; try lia; intuition lia.
Qed.

Lemma second4_ok_spec ch ch2 :
  second4_ok ch ch2 = true <->
  128 <= ch2 < 192 /\ (ch = 240 -> 144 <= ch2) /\ (ch = 244 -> ch2 < 144).
Proof.
  unfold second4_ok. rewrite andb_true_iff, is_cont_spec, negb_true_iff.
  destruct (Z.ltb_spec ch2 0x90); [destruct (Z.eqb_spec ch 0xF0) | destruct (Z.eqb_spec ch 0xF4)];
    split; intros; repeat split; try discriminate; try lia; intuition lia.
Qed.

Lemma cp2_arith ch ch2 : cp2 ch ch2 = 64 * ch + ch2 - 12416.
Proof. unfold cp2. rewrite !Z.shiftl_mul_pow2 by lia. lia. Qed.

Lemma cp3_arith ch ch2 ch3 : cp3 ch ch2 ch3 = 4096 * ch + 64 * ch2 + ch3 - 925824.
Proof. unfold cp3. rewrite !Z.shiftl_mul_pow2 by lia. lia. Qed.

Lemma cp4_arith ch ch2 ch3 ch4 :
  cp4 ch ch2 ch3 ch4 = 262144 * ch + 4096 * ch2 + 64 * ch3 + ch4 - 63447168.
Proof. unfold cp4. rewrite !Z.shiftl_mul_pow2 by lia. lia. Qed.

(** ** Decoding inverts encoding *)

(** The bytes of one code point, followed by any decodable rest. *)
Lemma decode_encode_char ch b rest s :
  valid_cp ch -> encode_char ch = Ok b -> decode rest = Ok s ->
  decode (b ++ rest) = Ok (ch :: s).
Proof.
  intros Hch E Hr. rewrite encode_char_arith in E by exact Hch. unfold valid_cp in Hch.
  destruct (Z.ltb_spec ch 0x80).
  { injection E as <-. cbn [app decode]. zbool. by rewrite Hr. }
  destruct (Z.ltb_spec ch 0x800).
  { injection E as <-. cbn [app decode]. zbool.
    rewrite (proj2 (is_cont_spec _)) by zlia. rewrite Hr, cp2_arith. cbn [bind].
    do 3 f_equal. zlia. }
  destruct (is_surrogate ch) eqn:Hs; [discriminate|].
  assert (Hns : ~ (55296 <= ch <= 57343)) by (rewrite <- is_surrogate_spec; congruence).
  destruct (Z.ltb_spec ch 0x10000); injection E as <-; cbn [app decode]; zbool.
  - rewrite (proj2 (second3_ok_spec _ _)) by (repeat split; zlia).
    rewrite (proj2 (is_cont_spec _)) by zlia. cbn [negb]. rewrite Hr, cp3_arith. cbn [bind].
    do 3 f_equal. zlia.
  - rewrite (proj2 (second4_ok_spec _ _)) by (repeat split; zlia).
    rewrite !(proj2 (is_cont_spec _)) by zlia. cbn [negb]. rewrite Hr, cp4_arith. cbn [bind].
    do 3 f_equal. zlia.
Qed.

Lemma decode_encode s bs :
  Forall valid_cp s -> encode s = Ok bs -> decode bs = Ok s.
Proof.
  revert bs. induction s as [|ch s IH]; intros bs Hs E; simpl in E.
  - by injection E as <-.
  - apply Forall_cons in Hs as [Hch Hs].
    apply bind_Ok_inv in E as [b [Eb E]]. apply bind_Ok_inv in E as [bs' [Ebs E]].
    injection E as <-. apply (decode_encode_char ch b); [done | done | by apply IH].
Qed.

(** ** Surrogates *)

Lemma encode_char_Raise ch e : encode_char ch = Raise e -> e = surrogate_error /\ is_surrogate ch = true.
Proof.
  unfold encode_char. destruct (ch <? 0x80), (ch <? 0x0800); try discriminate.
  destruct (is_surrogate ch); [by intros [= <-] | by destruct (ch <? 0x10000)].
Qed.

Lemma encode_char_surrogate ch : is_surrogate ch = true -> encode_char ch = Raise surrogate_error.
Proof.
  intros Hs. pose proof Hs as Hr. apply is_surrogate_spec in Hr.
  unfold encode_char. zbool. by rewrite Hs.
Qed.

Lemma encode_Raise s e :
  encode s = Raise e -> e = surrogate_error /\ Exists (fun c => is_surrogate c = true) s.
Proof.
  induction s as [|ch s IH]; simpl; [discriminate|].
  destruct (encode_char ch) as [b|e'] eqn:Hc; simpl.
  - destruct (encode s) as [bs|e'']; simpl; [discriminate|].
    intros [= <-]. destruct (IH eq_refl) as [-> Hex]. split; [done | by right].
  - intros [= <-]. destruct (encode_char_Raise _ _ Hc) as [-> Hs]. split; [done | by left].
Qed.

Lemma encode_surrogate s :
  Exists (fun c => is_surrogate c = true) s -> encode s = Raise surrogate_error.
Proof.
  induction 1 as [ch s Hs | ch s Hex IH]; simpl.
  - by rewrite encode_char_surrogate.
  - destruct (encode_char ch) as [b|e] eqn:Hc; simpl.
    + by rewrite IH.
    + by destruct (encode_char_Raise _ _ Hc) as [-> _].
Qed.

(** ** Latin-1 strings *)

Lemma encode_char_latin1 c : encode_char (code_point c) = Ok (utf8_encode_char c).
Proof. destruct c as [[] [] [] [] [] [] [] []]; reflexivity. Qed.

Lemma encode_of_string s : encode (of_string s) = Ok (utf8_encode s).
Proof.
  unfold of_string. induction s as [|c s IH]; [done|].
  cbn [String.list_ascii_of_string map encode utf8_encode].
  by rewrite encode_char_latin1, IH.
Qed.

Lemma of_string_nil s : of_string s = [] <-> s = ""%string.
Proof. destruct s; simpl; split; done. Qed.

(** ** Bytes and injectivity *)

Lemma encode_char_bytes ch b : valid_cp ch -> encode_char ch = Ok b -> bytes_ok b.
Proof.
  intros Hch E. rewrite encode_char_arith in E by exact Hch. unfold valid_cp in Hch.
  unfold bytes_ok, byte_ok.
  destruct (Z.ltb_spec ch 0x80); [injection E as <-; repeat constructor; lia|].
  destruct (Z.ltb_spec ch 0x800); [injection E as <-; repeat constructor; zlia|].
  destruct (is_surrogate ch); [discriminate|].
  destruct (Z.ltb_spec ch 0x10000); injection E as <-; repeat constructor; zlia.
Qed.

(** The UTF-8 encoding of a [str] is a list of bytes. *)
Lemma encode_bytes s bs : Forall valid_cp s -> encode s = Ok bs -> bytes_ok bs.
Proof.
  revert bs. induction s as [|ch s IH]; intros bs Hs E; simpl in E; [injection E as <-; constructor|].
  apply Forall_cons in Hs as [Hch Hs].
  apply bind_Ok_inv in E as [b [Eb E]]. apply bind_Ok_inv in E as [bs' [Ebs E]].
  injection E as <-. apply bytes_ok_app; [by apply (encode_char_bytes ch) | by apply IH].
Qed.

(** [str.encode('utf-8')] is injective: [bytes.decode('utf-8')] inverts it. *)
Lemma encode_inj s1 s2 bs :
  Forall valid_cp s1 -> Forall valid_cp s2 -> encode s1 = Ok bs -> encode s2 = Ok bs -> s1 = s2.
Proof.
  intros H1 H2 E1 E2. apply (decode_encode _ _ H1) in E1. apply (decode_encode _ _ H2) in E2.
  congruence.
Qed.

Lemma of_string_valid s : Forall valid_cp (of_string s).
Proof.
  unfold of_string. apply Forall_fmap, Forall_forall. intros c _.
  unfold valid_cp. simpl. pose proof (code_point_range c). lia.
Qed.

End Unicode.
