(* ===== verification/Bcrypt.v ===== *)
(** * The password-hashing library: bcrypt and flask_bcrypt

    models.py calls [bcrypt.generate_password_hash] (line 27) and
    [bcrypt.check_password_hash] (line 31), where [bcrypt] is the
    [flask_bcrypt.Bcrypt] object built in config.py.  Neither is code of
    this repository, so both are modelled here from the library's
    documented behaviour: a [str] password is encoded with
    [str.encode('utf-8')] ([Unicode.encode], which raises on a lone
    surrogate) and handed to [bcrypt.hashpw(password, salt)], over an
    interface [BcryptLib] for that primitive.  The laws of the interface
    are the ones the primitive is built to satisfy:
    - only the first 72 bytes of the password enter the hash;
    - a hash can stand in for the salt it was made with;
    - for a fixed salt, two passwords whose first 72 bytes differ give
      different hashes (collision freedom, idealised as injectivity, as
      symbolic models of cryptography do);
    - the output is ASCII.
    The truncation law is the behaviour of bcrypt 4.x and earlier; bcrypt
    5.0 raises [ValueError] on a password longer than 72 bytes instead.
    The repository pins no version; the model follows 4.x, and the
    theorems that mention the 72-byte prefix are about that behaviour.
    The random salt that [bcrypt.gensalt()] draws is an explicit argument.
    flask_bcrypt's configuration is its default: no pre-hashing of long
    passwords ([BCRYPT_HANDLE_LONG_PASSWORDS = False]).

    [ToyBcrypt] is one instance of the interface (the salt prefix followed
    by a hex rendering of the truncated password); it is used only to run
    the definitions on concrete inputs. *)

From S2P Require Import Prelude Utf8 Unicode.

Class BcryptLib := {
  salt_ok : list Z -> bool;
  hashpw_raw : list Z -> list Z -> list Z;
  hashpw_trunc p s : hashpw_raw p s = hashpw_raw (take 72 p) s;
  hashpw_salt_ok p s : salt_ok s = true -> salt_ok (hashpw_raw p s) = true;
  hashpw_resalt p q s :
    salt_ok s = true -> hashpw_raw p (hashpw_raw q s) = hashpw_raw p s;
  hashpw_ascii p s : salt_ok s = true -> ascii_bytes (hashpw_raw p s);
  hashpw_inj p q s :
    salt_ok s = true -> bytes_ok p -> bytes_ok q ->
    hashpw_raw p s = hashpw_raw q s -> take 72 p = take 72 q
}.

Section Flask.
Context `{BcryptLib}.

(** [bcrypt.hashpw(password, salt)]: raises on a malformed salt. *)
Definition hashpw (password salt : list Z) : result (list Z) :=
  if salt_ok salt then Ok (hashpw_raw password salt)
  else Raise (ValueError "Invalid salt").

(** [hmac.compare_digest(a, b)] (its constant time is not modelled). *)
Definition compare_digest (a b : list Z) : bool := bool_decide (a = b).

(** [Bcrypt.generate_password_hash(password)], with [salt] the value of
    [bcrypt.gensalt()]: a falsy password raises, a [str] is encoded with
    [str.encode('utf-8')] (which raises on a lone surrogate). *)
Definition generate_password_hash (password : option Unicode.pystr) (salt : list Z)
    : result (list Z) :=
  match password with
  | Some ((_ :: _) as p) => bs <- Unicode.encode p ;; hashpw bs salt
  | _ => Raise (ValueError "Password must be non-empty.")
  end.

(** [Bcrypt.check_password_hash(pw_hash, password)]. *)
Definition check_password_hash (pw_hash : list Z) (password : option Unicode.pystr)
    : result bool :=
  match password with
  | Some p =>
      bs <- Unicode.encode p ;; h <- hashpw bs pw_hash ;; Ok (compare_digest h pw_hash)
  | None => Raise (TypeError "Unicode-objects must be encoded before hashing")
  end.

(** Two passwords are indistinguishable to bcrypt when their first 72
    UTF-8 bytes agree. *)
Definition bcrypt_equiv (p q : string) : Prop :=
  take 72 (utf8_encode p) = take 72 (utf8_encode q).

#[export] Instance bcrypt_equiv_dec p q : Decision (bcrypt_equiv p q).
Proof. unfold bcrypt_equiv. apply _. Defined.

Lemma hashpw_Ok p s : salt_ok s = true -> hashpw p s = Ok (hashpw_raw p s).
Proof. unfold hashpw. by intros ->. Qed.

Lemma hashpw_raw_equiv_bytes bp bq s :
  salt_ok s = true -> bytes_ok bp -> bytes_ok bq ->
  hashpw_raw bp s = hashpw_raw bq s <-> take 72 bp = take 72 bq.
Proof.
  intros Hs Hp Hq. split; [by apply hashpw_inj|].
  intros E. by rewrite hashpw_trunc, E, <- hashpw_trunc.
Qed.

Lemma generate_password_hash_str_Ok p bp s :
  p <> [] -> Unicode.encode p = Ok bp -> salt_ok s = true ->
  generate_password_hash (Some p) s = Ok (hashpw_raw bp s).
Proof.
  intros Hp He Hs. destruct p as [|c p]; [done|].
    change ((bs <- Unicode.encode (c :: p) ;; hashpw bs s) = Ok (hashpw_raw bp s)).
  rewrite He. by apply hashpw_Ok.
Qed.

Lemma generate_password_hash_Ok_inv p s h :
  generate_password_hash (Some p) s = Ok h ->
  p <> [] /\ salt_ok s = true /\ exists bp, Unicode.encode p = Ok bp /\ h = hashpw_raw bp s.
Proof.
  destruct p as [|c p]; [discriminate|]. intros E.
  change ((bs <- Unicode.encode (c :: p) ;; hashpw bs s) = Ok h) in E. py_inv.
  unfold hashpw in E. destruct (salt_ok s); [|discriminate]. py_inv. eauto.
Qed.

(** Checking [q] against a hash made from the bytes [bp]: [True] exactly
    when the first 72 bytes of [q]'s encoding are those of [bp]. *)
Lemma check_password_hash_bytes bp q bq s :
  salt_ok s = true -> Unicode.encode q = Ok bq -> bytes_ok bp -> bytes_ok bq ->
  check_password_hash (hashpw_raw bp s) (Some q) = Ok (bool_decide (take 72 bq = take 72 bp)).
Proof.
  intros Hs He Hp Hq. unfold check_password_hash. rewrite He. cbn [bind].
  rewrite hashpw_Ok by (by apply hashpw_salt_ok). cbn [bind].
  rewrite hashpw_resalt by exact Hs.
  unfold compare_digest. f_equal. apply bool_decide_ext. by apply hashpw_raw_equiv_bytes.
Qed.

Lemma check_password_hash_raw p q s :
  salt_ok s = true ->
  check_password_hash (hashpw_raw (utf8_encode p) s) (Some (Unicode.of_string q)) =
  Ok (bool_decide (bcrypt_equiv q p)).
Proof.
  intros Hs. rewrite (check_password_hash_bytes _ _ (utf8_encode q) s Hs
    (Unicode.encode_of_string q) (utf8_encode_bytes p) (utf8_encode_bytes q)).
  reflexivity.
Qed.

(** A computation that starts by encoding [p], and cannot itself raise
    [surrogate_error], raises it exactly when [p] holds a surrogate. *)
Lemma encode_bind_surrogate {A} p (k : list Z -> result A) :
  (forall bs, k bs <> Raise Unicode.surrogate_error) ->
  (bs <- Unicode.encode p ;; k bs) = Raise Unicode.surrogate_error <->
  Exists (fun c => Unicode.is_surrogate c = true) p.
Proof.
  intros Hk. split.
  - destruct (Unicode.encode p) as [bs|e] eqn:E; simpl; [intros Hb; by destruct (Hk bs)|].
    intros [= ->]. by apply (Unicode.encode_Raise _ _ E).
  - intros Hex. by rewrite (Unicode.encode_surrogate _ Hex).
Qed.
End Flask.


(** ** A concrete instance, for running the models on examples *)

Module ToyBcrypt.
(** Two hex digits, rendered as the ASCII characters ['0'..'?']. *)
Definition hex_digits (b : Z) : list Z :=
  [48 + Z.land (Z.shiftr b 4) 15; 48 + Z.land b 15].

(** A salt is a 29-byte ASCII prefix, like ["$2b$12$"] and 22 characters. *)
Definition toy_salt_ok (s : list Z) : bool :=
  (29 <=? length s)%nat && forallb (fun b => (0 <=? b) && (b <? 128)) (take 29 s).

Definition toy_hashpw (p s : list Z) : list Z :=
  take 29 s ++ flat_map hex_digits (take 72 p).

Lemma land_15 x : Z.land x 15 = x mod 16.
Proof. change 15 with (Z.ones 4). rewrite Z.land_ones; [reflexivity | lia]. Qed.

Lemma hex_digits_eq b : hex_digits b = [48 + (b / 16) mod 16; 48 + b mod 16].
Proof. unfold hex_digits. rewrite !land_15, Z.shiftr_div_pow2 by lia. reflexivity. Qed.

Lemma hex_digits_inj b b' :
  byte_ok b -> byte_ok b' -> hex_digits b = hex_digits b' -> b = b'.
Proof.
  unfold byte_ok. rewrite !hex_digits_eq. intros Hb Hb' [= E1 E2].
  rewrite !(Z.mod_small (_ / 16) 16) in E1 by (split; [apply Z.div_pos | apply Z.div_lt_upper_bound]; lia).
  pose proof (Z.div_mod b 16). pose proof (Z.div_mod b' 16). lia.
Qed.

Lemma hex_digits_ascii b : ascii_bytes (hex_digits b).
Proof.
  rewrite hex_digits_eq. unfold ascii_bytes, ascii_byte.
  repeat constructor; pose proof (Z.mod_pos_bound (b / 16) 16);
    pose proof (Z.mod_pos_bound b 16); lia.
Qed.

Lemma flat_map_hex_inj p q :
  bytes_ok p -> bytes_ok q -> flat_map hex_digits p = flat_map hex_digits q -> p = q.
Proof.
  intros Hp. revert q. induction Hp as [|b p Hb Hp IH]; intros [|b' q] Hq E;
    simpl in E; try discriminate; [reflexivity|].
  inversion Hq as [|? ? Hb' Hq']; subst.
  injection E as E1 E2 E.
  assert (b = b') as <-.
  { apply hex_digits_inj; [exact Hb | exact Hb'|]. unfold hex_digits. congruence. }
  f_equal. by apply IH.
Qed.

Lemma toy_take_salt s X : toy_salt_ok s = true -> take 29 (take 29 s ++ X) = take 29 s.
Proof.
  intros [Hl _]%andb_prop. apply Nat.leb_le in Hl.
  apply take_app_length'. rewrite length_take. lia.
Qed.

Lemma toy_hashpw_salt_ok p s : toy_salt_ok s = true -> toy_salt_ok (toy_hashpw p s) = true.
Proof.
  intros Hs. unfold toy_hashpw. pose proof Hs as [Hl Ha]%andb_prop.
  apply Nat.leb_le in Hl. unfold toy_salt_ok.
  rewrite toy_take_salt, Ha by exact Hs. rewrite length_app, length_take.
  apply andb_true_intro; split; [apply Nat.leb_le; lia | reflexivity].
Qed.

Lemma toy_hashpw_ascii p s : toy_salt_ok s = true -> ascii_bytes (toy_hashpw p s).
Proof.
  intros [_ Ha]%andb_prop. apply Forall_app_2.
  - rewrite forallb_forall in Ha. apply Forall_forall. intros b Hb%list_elem_of_In.
    apply Ha in Hb. apply andb_prop in Hb as [H1 H2]. unfold ascii_byte. lia.
  - induction (take 72 p) as [|b l IH]; [constructor|].
    apply (Forall_app_2 _ (hex_digits b)); [apply hex_digits_ascii | exact IH].
Qed.

#[export] Instance toy_bcrypt : BcryptLib.
Proof.
  refine {| salt_ok := toy_salt_ok; hashpw_raw := toy_hashpw |}.
  - intros p s. unfold toy_hashpw. by rewrite take_take, Nat.min_id.
  - apply toy_hashpw_salt_ok.
  - intros p q s Hs. unfold toy_hashpw. by rewrite toy_take_salt.
  - apply toy_hashpw_ascii.
  - intros p q s _ Hp Hq E. unfold toy_hashpw in E. apply app_inv_head in E.
    apply flat_map_hex_inj; [by apply bytes_ok_take | by apply bytes_ok_take | exact E].
Defined.

(** A salt of the shape bcrypt draws: ["$2b$12$"] and 22 characters. *)
Definition salt1 : list Z := utf8_encode "$2b$12$abcdefghijklmnopqrstuv".
Definition salt2 : list Z := utf8_encode "$2b$12$ABCDEFGHIJKLMNOPQRSTUV".
End ToyBcrypt.
