(* ===== verification/UserModel.v ===== *)
(** * The [User] model (src/server/models.py, lines 7-47)

    A [User] row is a record of its five columns.  Every attribute write
    goes through [setattr]: a write to [username] runs the [@validates]
    hook [validate_username] first, a write to [password_hash] runs the
    hybrid property's setter, which stores a bcrypt hash in
    [_password_hash].  Passwords are Python [str] values
    ([Unicode.pystr]).  The SQLAlchemy constructor [User(key=value, ...)]
    performs the writes in order ([init]), but refuses [password_hash] as
    a keyword: its [hasattr] check reads the hybrid property on the class,
    which runs the raising getter.  Reading [password_hash] raises;
    [authenticate] is the only operation that reads the stored hash. *)

From S2P Require Import Prelude Utf8 Unicode Bcrypt.

Module User.

Record User : Type := mkUser {
  id : option Z;
  username : option string;
  _password_hash : option string;
  image_url : option string;
  bio : option string
}.

(** A new instance: every column is [None] until it is assigned. *)
Definition empty : User := mkUser None None None None None.

(** The attribute writes a caller can perform, with their values.  The
    write to [password_hash] carries the salt [bcrypt.gensalt()] draws
    while it runs. *)
Inductive attr : Type :=
| Set_id (v : option Z)
| Set_username (v : option string)
| Set__password_hash (v : option string)
| Set_password_hash (v : option Unicode.pystr) (salt : list Z)
| Set_image_url (v : option string)
| Set_bio (v : option string).

(** [@validates('username') def validate_username(self, key, username)] *)
Definition validate_username (key : string) (username : option string)
    : result (option string) :=
  if negb (py_truthy username) then Raise (ValueError "Username is required.")
  else Ok username.

(** [to_dict]: the public view. *)
Definition to_dict (self : User) : list (string * pyval) :=
  [("id", pyint_of self.(id));
   ("username", pystr_of self.(username));
   ("image_url", pystr_of self.(image_url));
   ("bio", pystr_of self.(bio))].

Definition username_ok (u : User) : Prop := py_truthy u.(username) = true.

(** [self._password_hash = v]: a plain column write. *)
Definition set_hash (self : User) (v : option string) : User :=
  {| id := self.(id); username := self.(username); _password_hash := v;
     image_url := self.(image_url); bio := self.(bio) |}.

Section WithBcrypt.
Context `{BcryptLib}.

(** The getter of the hybrid property [password_hash]. *)
Definition password_hash_get (self : User) : result string :=
  Raise (AttributeError "Password hashes cannot be accessed directly.").

(** Its setter: [self._password_hash = bcrypt.generate_password_hash(
    password).decode('utf-8')].  A failed UTF-8 decode raises
    [UnicodeDecodeError], a subclass of [ValueError]. *)
Definition password_hash_set (self : User) (password : option Unicode.pystr)
    (salt : list Z) : result User :=
  h <- generate_password_hash password salt ;;
  match utf8_decode h with
  | Some s => Ok (set_hash self (Some s))
  | None => Raise (ValueError "UnicodeDecodeError")
  end.

(** [authenticate]: [bcrypt.check_password_hash(
    self._password_hash.encode('utf-8'), password)]; with no hash stored,
    [None.encode] raises [AttributeError]. *)
Definition authenticate (self : User) (password : option Unicode.pystr) : result bool :=
  match self.(_password_hash) with
  | Some s => check_password_hash (utf8_encode s) password
  | None => Raise (AttributeError "'NoneType' object has no attribute 'encode'")
  end.

(** One attribute write, with the hooks models.py attaches to it. *)
Definition setattr (self : User) (a : attr) : result User :=
  match a with
  | Set_id v => Ok {| id := v; username := self.(username);
                      _password_hash := self.(_password_hash);
                      image_url := self.(image_url); bio := self.(bio) |}
  | Set_username v =>
      v' <- validate_username "username" v ;;
      Ok {| id := self.(id); username := v';
            _password_hash := self.(_password_hash);
            image_url := self.(image_url); bio := self.(bio) |}
  | Set__password_hash v => Ok (set_hash self v)
  | Set_password_hash v salt => password_hash_set self v salt
  | Set_image_url v =>
      Ok {| id := self.(id); username := self.(username);
            _password_hash := self.(_password_hash); image_url := v;
            bio := self.(bio) |}
  | Set_bio v =>
      Ok {| id := self.(id); username := self.(username);
            _password_hash := self.(_password_hash);
            image_url := self.(image_url); bio := v |}
  end.

(** Writes in order; the first that raises aborts the rest. *)
Definition setattrs (self : User) (kw : list attr) : result User :=
  run_writes setattr self kw.

(** One keyword of SQLAlchemy's declarative constructor: [if not
    hasattr(cls_, k): raise TypeError(...)], then [setattr(self, k, v)].
    [hasattr(User, 'password_hash')] evaluates the hybrid property on the
    class, and with no [.expression] that calls the getter (lines 20-22),
    which raises [AttributeError]; so [hasattr] is false and the keyword
    is refused. *)
Definition init_setattr (self : User) (a : attr) : result User :=
  match a with
  | Set_password_hash _ _ =>
      Raise (TypeError "'password_hash' is an invalid keyword argument for User")
  | _ => setattr self a
  end.

(** [User(key=value, ...)]: the keywords in order, from the empty row. *)
Definition init (kw : list attr) : result User := run_writes init_setattr empty kw.
End WithBcrypt.

Section Properties.
Context `{BcryptLib}.

(** What a successful password write leaves in the row: the decoded
    bcrypt hash of the password's UTF-8 encoding, whose re-encoding is
    the hash itself. *)
Lemma password_hash_set_inv u (p : Unicode.pystr) salt u' :
  password_hash_set u (Some p) salt = Ok u' ->
  salt_ok salt = true /\ p <> [] /\
  exists bp h, Unicode.encode p = Ok bp /\ u' = set_hash u (Some h) /\
               utf8_encode h = hashpw_raw bp salt.
Proof.
  unfold password_hash_set. intros E. py_inv.
  apply generate_password_hash_Ok_inv in Ha as (Hp & Hs & bp & Ee & ->).
  destruct (utf8_decode _) as [h|] eqn:Hd; [|discriminate]. py_inv.
  do 2 (split; [done|]). exists bp, h. do 2 (split; [done|]).
  destruct (utf8_decode_ascii (hashpw_raw bp salt)) as [h' [Hd' He]].
  { by apply hashpw_ascii. }
  rewrite Hd in Hd'. congruence.
Qed.

Lemma password_hash_set_ok u (p : Unicode.pystr) bp salt :
  p <> [] -> Unicode.encode p = Ok bp -> salt_ok salt = true ->
  exists u', password_hash_set u (Some p) salt = Ok u'.
Proof.
  intros Hp He Hs. unfold password_hash_set.
  rewrite (generate_password_hash_str_Ok p bp) by assumption. simpl.
  destruct (utf8_decode_ascii (hashpw_raw bp salt)) as [h [Hd _]].
  { by apply hashpw_ascii. }
  rewrite Hd. eauto.
Qed.

Lemma authenticate_set_hash u h q :
  authenticate (set_hash u (Some h)) q = check_password_hash (utf8_encode h) q.
Proof. reflexivity. Qed.

(** After a successful write of [p], checking a candidate [q] whose
    encoding is [bq] compares the first 72 bytes of the two encodings. *)
Lemma authenticate_after_set_bytes u (p : Unicode.pystr) salt u' (q : Unicode.pystr) bq :
  Forall Unicode.valid_cp p -> Unicode.encode q = Ok bq -> bytes_ok bq ->
  password_hash_set u (Some p) salt = Ok u' ->
  exists bp, Unicode.encode p = Ok bp /\
    authenticate u' (Some q) = Ok (bool_decide (take 72 bq = take 72 bp)).
Proof.
  intros Hv Hq Hbq Hset.
  apply password_hash_set_inv in Hset as (Hs & _ & bp & h & Ep & -> & He).
  exists bp. split; [done|]. rewrite authenticate_set_hash, He.
  apply check_password_hash_bytes; [done | done | | done].
  by apply (Unicode.encode_bytes p).
Qed.


(** C2: after a successful write of password [p], [authenticate q]
    returns [True] exactly when [q] and [p] agree on their first 72
    UTF-8 bytes, and never raises. *)
Theorem authenticate_after_set u p salt u' q :
  password_hash_set u (Some (Unicode.of_string p)) salt = Ok u' ->
  authenticate u' (Some (Unicode.of_string q)) = Ok (bool_decide (bcrypt_equiv q p)).
Proof.
  intros Hset. apply password_hash_set_inv in Hset as (Hs & _ & bp & h & Ep & -> & He).
  rewrite Unicode.encode_of_string in Ep. injection Ep as <-.
  rewrite authenticate_set_hash, He. by apply check_password_hash_raw.
Qed.

(** C1: for every non-empty password and every well-formed salt, the
    setter succeeds, and authenticating with the same password then
    returns [True]. *)
Theorem set_then_authenticate u p salt :
  p <> ""%string -> salt_ok salt = true ->
  exists u', password_hash_set u (Some (Unicode.of_string p)) salt = Ok u' /\
             authenticate u' (Some (Unicode.of_string p)) = Ok true.
Proof.
  intros Hp Hs.
  destruct (password_hash_set_ok u (Unicode.of_string p) (utf8_encode p) salt)
    as [u' Hset]; [by rewrite Unicode.of_string_nil | apply Unicode.encode_of_string | done |].
  exists u'. split; [exact Hset|].
  rewrite (authenticate_after_set _ _ _ _ _ Hset). by rewrite bool_decide_true.
Qed.


(** C5: the same for any Python strings of code points: when both
    encodings fit in 72 bytes, [authenticate] after a successful write of
    [p] accepts exactly [p]. *)
Theorem authenticate_short_str u (p : Unicode.pystr) salt u' (q : Unicode.pystr) bp bq :
  Forall Unicode.valid_cp p -> Forall Unicode.valid_cp q ->
  Unicode.encode p = Ok bp -> Unicode.encode q = Ok bq ->
  (length bp <= 72)%nat -> (length bq <= 72)%nat ->
  password_hash_set u (Some p) salt = Ok u' ->
  authenticate u' (Some q) = Ok (bool_decide (q = p)).
Proof.
  intros Hvp Hvq Hp Hq Hlp Hlq Hset.
  destruct (authenticate_after_set_bytes u p salt u' q bq Hvp Hq
              (Unicode.encode_bytes q bq Hvq Hq) Hset) as [bp' [Hp' E]].
  rewrite E. assert (bp' = bp) as -> by congruence.
  f_equal. apply bool_decide_ext. rewrite (take_ge bq 72 Hlq), (take_ge bp 72 Hlp). split; [|intros ->; congruence].
  intros <-. by apply (Unicode.encode_inj q p bq).
Qed.

(** C4: [str.encode('utf-8')] raises on a lone surrogate, and neither the
    setter nor [authenticate] catches it: on a non-empty password, the
    setter raises [UnicodeEncodeError] exactly when the password holds a
    surrogate code point, and so does [authenticate] on a user with a
    stored hash. *)
Theorem password_surrogate u (p : Unicode.pystr) salt h :
  p <> [] ->
  (password_hash_set u (Some p) salt = Raise Unicode.surrogate_error <->
   Exists (fun c => Unicode.is_surrogate c = true) p) /\
  (authenticate (set_hash u (Some h)) (Some p) = Raise Unicode.surrogate_error <->
   Exists (fun c => Unicode.is_surrogate c = true) p).
Proof.
  intros Hp. rewrite authenticate_set_hash. split.
  - destruct p as [|c p]; [done|]. unfold password_hash_set, generate_password_hash.
    cbv beta iota. rewrite bind_assoc. apply encode_bind_surrogate. intros bs.
    unfold hashpw. destruct (salt_ok salt); [simpl|discriminate].
    by destruct (utf8_decode _).
  - apply encode_bind_surrogate. intros bs.
    unfold hashpw. by destruct (salt_ok _).
Qed.
(** Which writes touch the stored hash, and which the username. *)
Definition writes_hash (a : attr) : bool :=
  match a with Set__password_hash _ | Set_password_hash _ _ => true | _ => false end.
Definition writes_username (a : attr) : bool :=
  match a with Set_username _ => true | _ => false end.

Lemma validate_username_Ok k v v' :
  validate_username k v = Ok v' -> v' = v /\ py_truthy v = true.
Proof.
  unfold validate_username. destruct (py_truthy v); simpl; intros E;
    [injection E as <-; auto | discriminate].
Qed.

Lemma setattr_username_value u v u' :
  setattr u (Set_username v) = Ok u' -> u'.(username) = v /\ py_truthy v = true.
Proof.
  simpl. intros E. py_inv. apply validate_username_Ok in Ha as [-> Hv]. by split.
Qed.

Lemma password_hash_set_username u p salt u' :
  password_hash_set u p salt = Ok u' -> u'.(username) = u.(username).
Proof.
  unfold password_hash_set. intros E. py_inv.
  destruct (utf8_decode _); [by injection E as <- | discriminate].
Qed.

Lemma password_hash_set_to_dict u p salt u' :
  password_hash_set u p salt = Ok u' -> to_dict u' = to_dict u.
Proof.
  unfold password_hash_set. intros E. py_inv.
  destruct (utf8_decode _); [by injection E as <- | discriminate].
Qed.

Lemma setattr_username u a u' :
  setattr u a = Ok u' ->
  if writes_username a then username_ok u' else u'.(username) = u.(username).
Proof.
  destruct a; simpl; intros E; py_inv; try reflexivity.
  - by apply validate_username_Ok in Ha as [-> ?].
  - by apply password_hash_set_username in E.
Qed.

Lemma setattr_hash u a u' :
  writes_hash a = false -> setattr u a = Ok u' ->
  u'.(_password_hash) = u.(_password_hash).
Proof. destruct a; simpl; intros ? E; py_inv; done. Qed.

Definition writes_id (a : attr) : bool :=
  match a with Set_id _ => true | _ => false end.

Lemma setattr_username_step s a s' :
  setattr s a = Ok s' ->
  if writes_username a then username_ok s' else (username_ok s -> username_ok s').
Proof.
  intros E. pose proof (setattr_username _ _ _ E) as Hw.
  destruct (writes_username a); [exact Hw|]. unfold username_ok. by rewrite Hw.
Qed.

Lemma setattr_id u a u' :
  writes_id a = false -> setattr u a = Ok u' -> u'.(id) = u.(id).
Proof.
  destruct a; simpl; intros ? E; py_inv; try done.
  unfold password_hash_set in E. py_inv.
  destruct (utf8_decode _); [by injection E as <- | discriminate].
Qed.

(** A keyword the constructor accepts is an ordinary attribute write. *)
Lemma init_setattr_Ok s a s' : init_setattr s a = Ok s' -> setattr s a = Ok s'.
Proof. destruct a; simpl; intros E; [done..| discriminate | done | done]. Qed.

Lemma setattr_username_none_or_ok s a s' :
  setattr s a = Ok s' ->
  if writes_username a then s'.(username) = None \/ username_ok s'
  else (s.(username) = None \/ username_ok s -> s'.(username) = None \/ username_ok s').
Proof.
  intros Es. pose proof (setattr_username _ _ _ Es) as Hw.
  destruct (writes_username a); cbv iota in *; [by right|]. unfold username_ok. by rewrite Hw.
Qed.

(** A constructed user has either no username (none was passed) or a
    non-empty one, and so has it after any further writes. *)
Lemma init_username kw u :
  init kw = Ok u -> u.(username) = None \/ username_ok u.
Proof.
  intros E. refine (run_writes_invariant init_setattr
    (fun u => u.(username) = None \/ username_ok u) writes_username _ kw _ _ E _);
    [|by left; left].
  intros s a s' Es%init_setattr_Ok. by apply setattr_username_none_or_ok.
Qed.

Lemma setattrs_username_none_or_ok u kw u' :
  u.(username) = None \/ username_ok u -> setattrs u kw = Ok u' ->
  u'.(username) = None \/ username_ok u'.
Proof.
  intros Hu E. refine (run_writes_invariant setattr
    (fun u => u.(username) = None \/ username_ok u) writes_username _ kw _ _ E _);
    [apply setattr_username_none_or_ok | by left].
Qed.


(** C10: every sequence of attribute writes that succeeds keeps a
    non-empty username non-empty, and a sequence that writes the
    username at least once ends with a non-empty username. *)
Theorem setattrs_username_invariant u kw u' :
  setattrs u kw = Ok u' ->
  (username_ok u \/ Exists (fun a => writes_username a = true) kw) ->
  username_ok u'.
Proof. apply run_writes_invariant, setattr_username_step. Qed.

(** The writes that run no hook and cannot fail. *)
Definition plain_write (a : attr) : bool :=
  match a with
  | Set_id _ | Set__password_hash _ | Set_image_url _ | Set_bio _ => true
  | _ => false
  end.

Lemma init_plain kw s :
  Forall (fun a => plain_write a = true) kw ->
  exists s', run_writes init_setattr s kw = Ok s' /\ s'.(username) = s.(username).
Proof.
  revert s. induction kw as [|a kw IH]; intros s Hkw; simpl; [eauto|].
  inversion Hkw as [|? ? Ha Hkw']; subst.
  destruct a; try discriminate; simpl;
    match goal with |- context [run_writes _ ?s1 kw] =>
      destruct (IH s1 Hkw') as [s' [-> Hs']]; eauto end.
Qed.

(** C11: the constructor runs [validate_username] only when [username]
    is passed: [User(...)] with only plain columns as keywords always
    succeeds, with [username = None]; the missing value is only rejected
    by the NOT NULL constraint when the row is committed. *)
Theorem init_without_username kw :
  Forall (fun a => plain_write a = true) kw ->
  exists u, init kw = Ok u /\ u.(username) = None.
Proof.
  intros Hkw. destruct (init_plain kw empty Hkw) as [u [E Hu]]. by exists u.
Qed.


(** C9: a write to [username] succeeds exactly on a non-empty string,
    which it stores unchanged, and raises [ValueError("Username is
    required.")] on [None] and on [""]. *)
Theorem setattr_username_spec u v :
  setattr u (Set_username v) =
  match v with
  | Some (String _ _) =>
      Ok {| id := u.(id); username := v; _password_hash := u.(_password_hash);
            image_url := u.(image_url); bio := u.(bio) |}
  | _ => Raise (ValueError "Username is required.")
  end.
Proof. destruct v as [[|c s]|]; reflexivity. Qed.

(** C7: a user built by the constructor without a password write has no
    hash, and [authenticate] on it raises [AttributeError] (the spec
    asks for an error here rather than [False]). *)
Theorem authenticate_without_hash kw u q :
  Forall (fun a => writes_hash a = false) kw -> init kw = Ok u ->
  authenticate u q = Raise (AttributeError "'NoneType' object has no attribute 'encode'").
Proof.
  intros Hkw E. apply (run_writes_frame init_setattr _password_hash writes_hash) in E;
    [| intros ???? Hs%init_setattr_Ok; by eapply setattr_hash | exact Hkw].
  unfold authenticate. by rewrite E.
Qed.

(** C8: the setter rejects a missing or empty password with
    [ValueError("Password must be non-empty.")], whatever the salt. *)
Theorem password_hash_set_empty u p salt :
  p = None \/ p = Some [] ->
  password_hash_set u p salt = Raise (ValueError "Password must be non-empty.").
Proof. by intros [-> | ->]. Qed.

(** C6: the hash is never observable through the public view: [to_dict]
    has exactly the keys [id], [username], [image_url], [bio], every
    write of the hash leaves it unchanged, and reading [password_hash]
    raises [AttributeError]. *)
Theorem password_hash_unobservable u v p salt u' :
  map fst (to_dict u) = ["id"; "username"; "image_url"; "bio"]%string /\
  to_dict (set_hash u v) = to_dict u /\
  (password_hash_set u p salt = Ok u' -> to_dict u' = to_dict u) /\
  password_hash_get u = Raise (AttributeError "Password hashes cannot be accessed directly.").
Proof.
  split; [reflexivity|]. split; [reflexivity|].
  split; [apply password_hash_set_to_dict | reflexivity].
Qed.
End Properties.

End User.

(** ** The User properties on concrete inputs (with [ToyBcrypt]) *)

Module UserExamples.
Import ToyBcrypt.

Definition chef1 : User.User :=
  ok_or User.empty (User.init [User.Set_username (Some "chef1")]).

Definition hunter2 : Unicode.pystr := Unicode.of_string "hunter2".

Definition chef1_pw : User.User :=
  ok_or User.empty (User.password_hash_set chef1 (Some hunter2) salt1).

Lemma chef1_pw_set :
  User.password_hash_set chef1 (Some hunter2) salt1 = Ok chef1_pw.
Proof. apply ok_or_spec. vm_compute. reflexivity. Qed.

(** The password "€uro", with a three-byte code point. *)
Definition euro : Unicode.pystr := [0x20AC; 117; 114; 111].

Definition chef1_euro : User.User :=
  ok_or User.empty (User.password_hash_set chef1 (Some euro) salt1).

Lemma chef1_euro_set :
  User.password_hash_set chef1 (Some euro) salt1 = Ok chef1_euro.
Proof. apply ok_or_spec. vm_compute. reflexivity. Qed.

Lemma set_then_authenticate_witness :
  exists u', User.password_hash_set chef1 (Some (Unicode.of_string "hunter2")) salt1 = Ok u' /\
             User.authenticate u' (Some (Unicode.of_string "hunter2")) = Ok true.
Proof. apply User.set_then_authenticate; [discriminate | vm_compute; reflexivity]. Defined.

Lemma authenticate_after_set_witness :
  User.authenticate chef1_pw (Some (Unicode.of_string "wrong")) = Ok false.
Proof.
  rewrite (User.authenticate_after_set _ _ _ _ _ chef1_pw_set).
  vm_compute. reflexivity.
Defined.


Lemma authenticate_short_str_witness :
  User.authenticate chef1_euro (Some [0x20AC; 117; 114; 112]) = Ok false.
Proof.
  rewrite (User.authenticate_short_str chef1 euro salt1 chef1_euro _
             [226; 130; 172; 117; 114; 111] [226; 130; 172; 117; 114; 112]);
    [reflexivity | repeat constructor; unfold Unicode.valid_cp; lia
    | repeat constructor; unfold Unicode.valid_cp; lia
    | reflexivity | reflexivity | simpl; lia | simpl; lia | exact chef1_euro_set].
Defined.

Lemma password_surrogate_witness :
  User.password_hash_set chef1 (Some [104; 0xD800]) salt1 = Raise Unicode.surrogate_error /\
  User.authenticate (User.set_hash chef1 (Some "$2b$12$abc")) (Some [0xDC00]) =
  Raise Unicode.surrogate_error.
Proof.
  destruct (User.password_surrogate chef1 [104; 0xD800] salt1 "$2b$12$abc") as [H1 _];
    [discriminate|].
  destruct (User.password_surrogate chef1 [0xDC00] salt1 "$2b$12$abc") as [_ H2];
    [discriminate|].
  split; [apply H1 | apply H2]; by repeat constructor.
Defined.

Lemma authenticate_without_hash_witness :
  User.authenticate chef1 (Some hunter2) =
  Raise (AttributeError "'NoneType' object has no attribute 'encode'").
Proof.
  apply (User.authenticate_without_hash [User.Set_username (Some "chef1")]);
    [repeat constructor | vm_compute; reflexivity].
Defined.

Lemma password_hash_set_empty_witness :
  User.password_hash_set chef1 (Some []) salt1 =
  Raise (ValueError "Password must be non-empty.").
Proof. apply User.password_hash_set_empty. by right. Defined.

Lemma setattrs_username_invariant_witness :
  User.username_ok (ok_or User.empty
    (User.setattrs User.empty [User.Set_bio (Some "cook"); User.Set_username (Some "chef1")])).
Proof.
  apply (User.setattrs_username_invariant User.empty
           [User.Set_bio (Some "cook"); User.Set_username (Some "chef1")]).
  - apply ok_or_spec. reflexivity.
  - right. constructor 2. constructor 1. reflexivity.
Defined.

Lemma init_without_username_witness :
  exists u, User.init [User.Set_bio (Some "cook"); User.Set_id (Some 7)] = Ok u /\
            u.(User.username) = None.
Proof. apply User.init_without_username. repeat constructor. Defined.


Lemma password_hash_unobservable_witness :
  User.to_dict chef1_pw = User.to_dict chef1.
Proof.
  apply (User.password_hash_unobservable chef1 None (Some hunter2) salt1 chef1_pw).
  exact chef1_pw_set.
Defined.
End UserExamples.
