(* ===== verification/RecipeModel.v ===== *)
(** * The [Recipe] model (src/server/models.py, lines 49-84)

    A [Recipe] row is a record of its five columns.  A write to [title] or
    [instructions] runs its [@validates] hook first; [minutes_to_complete]
    and [user_id] have none.  The constructor performs the keyword writes in
    order ([init]).  [to_dict] embeds the owner's public view, or [None]
    when no owner is linked; the owner ([self.user], the relationship) is
    resolved by the session, so it is an argument here and [Store] supplies
    it from the [user_id] column. *)

From S2P Require Import Prelude UserModel.

Module Recipe.

Record Recipe : Type := mkRecipe {
  id : option Z;
  title : option string;
  instructions : option string;
  minutes_to_complete : option Z;
  user_id : option Z
}.

Definition empty : Recipe := mkRecipe None None None None None.

Inductive attr : Type :=
| Set_id (v : option Z)
| Set_title (v : option string)
| Set_instructions (v : option string)
| Set_minutes_to_complete (v : option Z)
| Set_user_id (v : option Z).

(** [len(x)] of a [str]; the validator only calls it on a non-empty
    string. *)
Definition py_len (v : option string) : nat :=
  match v with Some s => String.length s | None => 0%nat end.

(** [@validates('title') def validate_title(self, key, title)] *)
Definition validate_title (key : string) (title : option string)
    : result (option string) :=
  if negb (py_truthy title) then Raise (ValueError "Title is required.")
  else Ok title.

(** [@validates('instructions') def validate_instructions(self, key,
    instructions)] *)
Definition validate_instructions (key : string) (instructions : option string)
    : result (option string) :=
  if negb (py_truthy instructions) then
    Raise (ValueError "Instructions are required.")
  else if (py_len instructions <? 50)%nat then
    Raise (ValueError "Instructions must be at least 50 characters long.")
  else Ok instructions.

Definition setattr (self : Recipe) (a : attr) : result Recipe :=
  match a with
  | Set_id v =>
      Ok {| id := v; title := self.(title); instructions := self.(instructions);
            minutes_to_complete := self.(minutes_to_complete);
            user_id := self.(user_id) |}
  | Set_title v =>
      v' <- validate_title "title" v ;;
      Ok {| id := self.(id); title := v'; instructions := self.(instructions);
            minutes_to_complete := self.(minutes_to_complete);
            user_id := self.(user_id) |}
  | Set_instructions v =>
      v' <- validate_instructions "instructions" v ;;
      Ok {| id := self.(id); title := self.(title); instructions := v';
            minutes_to_complete := self.(minutes_to_complete);
            user_id := self.(user_id) |}
  | Set_minutes_to_complete v =>
      Ok {| id := self.(id); title := self.(title);
            instructions := self.(instructions); minutes_to_complete := v;
            user_id := self.(user_id) |}
  | Set_user_id v =>
      Ok {| id := self.(id); title := self.(title);
            instructions := self.(instructions);
            minutes_to_complete := self.(minutes_to_complete); user_id := v |}
  end.

Definition setattrs (self : Recipe) (kw : list attr) : result Recipe :=
  run_writes setattr self kw.

(** [Recipe(key=value, ...)] *)
Definition init (kw : list attr) : result Recipe := setattrs empty kw.

(** [to_dict], with [owner] the value of [self.user]. *)
Definition to_dict (owner : option User.User) (self : Recipe)
    : list (string * pyval) :=
  [("id", pyint_of self.(id));
   ("title", pystr_of self.(title));
   ("instructions", pystr_of self.(instructions));
   ("minutes_to_complete", pyint_of self.(minutes_to_complete));
   ("user", match owner with
            | Some u => PyDict (User.to_dict u)
            | None => PyNone
            end)].

Definition title_ok (r : Recipe) : Prop := py_truthy r.(title) = true.
Definition instructions_ok (r : Recipe) : Prop :=
  exists s, r.(instructions) = Some s /\ (50 <= String.length s)%nat.

Definition writes_title (a : attr) : bool :=
  match a with Set_title _ => true | _ => false end.
Definition writes_instructions (a : attr) : bool :=
  match a with Set_instructions _ => true | _ => false end.
Definition writes_id (a : attr) : bool :=
  match a with Set_id _ => true | _ => false end.

Section Properties.

Lemma setattr_title r a r' :
  setattr r a = Ok r' ->
  if writes_title a then title_ok r' else r'.(title) = r.(title).
Proof.
  destruct a; simpl; intros E; py_inv; try reflexivity.
  unfold validate_title in Ha. destruct (py_truthy v) eqn:Hv; simpl in Ha;
    [by injection Ha as <- | discriminate].
Qed.

Lemma validate_instructions_Ok k v v' :
  validate_instructions k v = Ok v' ->
  v' = v /\ exists s, v = Some s /\ (50 <= String.length s)%nat.
Proof.
  unfold validate_instructions. destruct (py_truthy v) eqn:Hv; simpl; [|discriminate].
  apply py_truthy_spec in Hv as [s [-> _]]. simpl.
  destruct (String.length s <? 50)%nat eqn:Hl; [discriminate|].
  intros [= <-]. apply Nat.ltb_ge in Hl. eauto.
Qed.

Lemma validate_instructions_short k s :
  (String.length s < 50)%nat ->
  exists msg, validate_instructions k (Some s) = Raise (ValueError msg).
Proof.
  intros Hl. unfold validate_instructions. destruct s as [|c s']; [simpl; eauto|].
  cbn [py_truthy negb py_len]. apply Nat.ltb_lt in Hl. rewrite Hl. eauto.
Qed.

Lemma validate_instructions_long k s :
  (50 <= String.length s)%nat -> validate_instructions k (Some s) = Ok (Some s).
Proof.
  intros Hl. unfold validate_instructions. destruct s as [|c s']; [simpl in Hl; lia|].
  cbn [py_truthy negb py_len]. apply Nat.ltb_ge in Hl. by rewrite Hl.
Qed.

Lemma setattr_instructions r a r' :
  setattr r a = Ok r' ->
  if writes_instructions a then instructions_ok r'
  else r'.(instructions) = r.(instructions).
Proof.
  destruct a; simpl; intros E; py_inv; try reflexivity.
  apply validate_instructions_Ok in Ha as [-> Hs]. exact Hs.
Qed.

Lemma setattr_title_step s a s' :
  setattr s a = Ok s' ->
  if writes_title a then title_ok s' else (title_ok s -> title_ok s').
Proof.
  intros Hs. pose proof (setattr_title _ _ _ Hs) as Hw.
  destruct (writes_title a); [exact Hw|]. unfold title_ok. by rewrite Hw.
Qed.

Lemma setattr_instructions_step s a s' :
  setattr s a = Ok s' ->
  if writes_instructions a then instructions_ok s' else (instructions_ok s -> instructions_ok s').
Proof.
  intros Hs. pose proof (setattr_instructions _ _ _ Hs) as Hw.
  destruct (writes_instructions a); [exact Hw|]. unfold instructions_ok. by rewrite Hw.
Qed.

Lemma setattr_frame r a r' :
  setattr r a = Ok r' ->
  (writes_id a = false -> r'.(id) = r.(id)) /\
  (match a with Set_minutes_to_complete _ => False | _ => True end ->
     r'.(minutes_to_complete) = r.(minutes_to_complete)).
Proof. destruct a; simpl; intros E; py_inv; split; done. Qed.

(** A constructed recipe has, for each validated column, either no
    value (it was not passed) or a valid one. *)
Lemma init_fields kw r :
  init kw = Ok r ->
  (r.(title) = None \/ title_ok r) /\ (r.(instructions) = None \/ instructions_ok r).
Proof.
  intros E. split.
  - refine (run_writes_invariant setattr (fun r => r.(title) = None \/ title_ok r)
              writes_title _ kw _ _ E _); [|by left; left].
    intros s a s' Es. pose proof (setattr_title _ _ _ Es) as Hw.
    destruct (writes_title a); simpl; [by right|]. unfold title_ok. by rewrite Hw.
  - refine (run_writes_invariant setattr
              (fun r => r.(instructions) = None \/ instructions_ok r)
              writes_instructions _ kw _ _ E _); [|by left; left].
    intros s a s' Es. pose proof (setattr_instructions _ _ _ Es) as Hw.
    destruct (writes_instructions a); simpl; [by right|].
    unfold instructions_ok. by rewrite Hw.
Qed.

Lemma deep_keys_to_dict owner r :
  deep_keys (PyDict (to_dict owner r)) =
  ["id"; "title"; "instructions"; "minutes_to_complete"; "user"]%string ++
  match owner with
  | Some _ => ["id"; "username"; "image_url"; "bio"]%string
  | None => []
  end.
Proof. destruct owner; cbn; autorewrite with pyrw; reflexivity. Qed.

(** C13: an [instructions] write of a string shorter than 50 characters
    raises [ValueError], and one of 50 characters or more succeeds and
    stores the string unchanged. *)
Theorem setattr_instructions_threshold r s :
  ((String.length s < 50)%nat ->
     exists msg, setattr r (Set_instructions (Some s)) = Raise (ValueError msg)) /\
  ((50 <= String.length s)%nat ->
     setattr r (Set_instructions (Some s)) =
     Ok {| id := r.(id); title := r.(title); instructions := Some s;
           minutes_to_complete := r.(minutes_to_complete); user_id := r.(user_id) |}).
Proof.
  split; intros Hl; simpl.
  - destruct (validate_instructions_short "instructions" s Hl) as [msg ->]. eauto.
  - by rewrite validate_instructions_long.
Qed.

(** C14: a [title] write succeeds exactly on a non-empty string, which
    it stores unchanged, and raises [ValueError("Title is required.")]
    on [None] and [""]. *)
Theorem setattr_title_spec r v :
  setattr r (Set_title v) =
  if py_truthy v then
    Ok {| id := r.(id); title := v; instructions := r.(instructions);
          minutes_to_complete := r.(minutes_to_complete); user_id := r.(user_id) |}
  else Raise (ValueError "Title is required.").
Proof. simpl. unfold validate_title. by destruct (py_truthy v). Qed.

(** C15: a sequence of writes that succeeds ends with a non-empty title
    and instructions of at least 50 characters, when the record had them
    before or the sequence writes them. *)
Theorem setattrs_recipe_invariant r kw r' :
  setattrs r kw = Ok r' ->
  (title_ok r \/ Exists (fun a => writes_title a = true) kw) ->
  (instructions_ok r \/ Exists (fun a => writes_instructions a = true) kw) ->
  title_ok r' /\ instructions_ok r'.
Proof.
  intros E Ht Hi. split.
  - revert E Ht. apply run_writes_invariant, setattr_title_step.
  - revert E Hi. apply run_writes_invariant, setattr_instructions_step.
Qed.

(** C16: [to_dict] embeds the owner's public view under ["user"] when an
    owner is linked and [None] otherwise, and no key of the result, at
    any depth, names the password hash. *)
Theorem to_dict_owner owner r :
  (dict_get (to_dict owner r) "user" =
    Some (match owner with Some u => PyDict (User.to_dict u) | None => PyNone end)) /\
  ("_password_hash"%string ∉ deep_keys (PyDict (to_dict owner r))) /\
  ("password_hash"%string ∉ deep_keys (PyDict (to_dict owner r))).
Proof.
  rewrite deep_keys_to_dict. split; [reflexivity|].
  destruct owner; split; rewrite list_elem_of_In; simpl; intuition discriminate.
Qed.
End Properties.

End Recipe.

(** ** The Recipe properties on concrete inputs *)

Module RecipeExamples.

Lemma instructions_49_rejected :
  exists msg, Recipe.setattr Recipe.empty
    (Recipe.Set_instructions (Some (str_repeat 49 "x"))) = Raise (ValueError msg).
Proof.
  apply (proj1 (Recipe.setattr_instructions_threshold _ _)).
  rewrite length_str_repeat. lia.
Defined.

Lemma instructions_50_accepted :
  Recipe.setattr Recipe.empty (Recipe.Set_instructions (Some (str_repeat 50 "x"))) =
  Ok (Recipe.mkRecipe None None (Some (str_repeat 50 "x")) None None).
Proof.
  apply (proj2 (Recipe.setattr_instructions_threshold Recipe.empty (str_repeat 50 "x"))).
  rewrite length_str_repeat. lia.
Defined.

Lemma setattrs_recipe_invariant_witness :
  let r := ok_or Recipe.empty (Recipe.init
    [Recipe.Set_title (Some "Soup"); Recipe.Set_instructions (Some (str_repeat 50 "x"));
     Recipe.Set_minutes_to_complete (Some 30)]) in
  Recipe.title_ok r /\ Recipe.instructions_ok r.
Proof.
  apply Recipe.setattrs_recipe_invariant with (r := Recipe.empty)
    (kw := [Recipe.Set_title (Some "Soup");
            Recipe.Set_instructions (Some (str_repeat 50 "x"));
            Recipe.Set_minutes_to_complete (Some 30)]).
  - apply ok_or_spec. reflexivity.
  - right. constructor 1. reflexivity.
  - right. constructor 2. constructor 1. reflexivity.
Defined.
End RecipeExamples.
