(* ===== verification/Store.v ===== *)
(** * The session and the SQLite tables

    What the models' column declarations ask of the database
    (src/server/models.py lines 10-17 and 52-58), as SQLite enforces it:
    - [users.username] is NOT NULL and UNIQUE, [recipes.title],
      [recipes.instructions] and [recipes.minutes_to_complete] are NOT NULL,
      and a violation raises [IntegrityError] at commit;
    - [id] is an [INTEGER PRIMARY KEY], i.e. the rowid: when not given it is
      chosen by [Rowid.next_rowid] (the largest rowid plus one, or a random
      search past 2^63 - 1, with the draws [rnd] an argument of each
      insert), and no rowid exceeds the signed 64-bit range;
    - integers bound to a statement must fit in 64 bits, or the sqlite3
      driver raises [OverflowError];
    - [recipes.user_id] references [users.id], but SQLite does not enforce
      foreign keys unless [PRAGMA foreign_keys] is on, which config.py does
      not do;
    - [Recipe.user] / [User.recipes] is the relationship with its backref,
      resolved through [user_id];
    - [session.delete(user)] without a delete cascade sets [user_id] of the
      user's recipes to NULL before deleting the row (SQLAlchemy's default);
    - an update assigns attributes of a loaded row (running the validators)
      and binds and checks the row again at commit;
    - [user.recipes = rs] before [session.add(user)] cascades the recipes
      into the session; the flush inserts the user first, then each recipe
      in collection order with [user_id] set to the user's new id.
    Each operation is one [session.add(...)]/[session.commit()] or
    [session.delete(...)]/[session.commit()]: it either leaves a new store
    or raises and leaves the old one (the session is rolled back). *)

From S2P Require Import Prelude Rowid Unicode Bcrypt UserModel RecipeModel.
Import Rowid.

Module Store.

Record db : Type := mkDB {
  users : gmap Z User.User;
  recipes : gmap Z Recipe.Recipe
}.

Definition empty_db : db := mkDB ∅ ∅.

Definition username_taken (d : db) (except : option Z) (name : option string) : bool :=
  bool_decide (map_Exists (fun i (u : User.User) =>
                 Some i <> except /\ u.(User.username) = name) d.(users)).

Definition with_user_id (u : User.User) (i : Z) : User.User :=
  {| User.id := Some i; User.username := u.(User.username);
     User._password_hash := u.(User._password_hash);
     User.image_url := u.(User.image_url); User.bio := u.(User.bio) |}.

Definition with_recipe_id (r : Recipe.Recipe) (i : Z) : Recipe.Recipe :=
  {| Recipe.id := Some i; Recipe.title := r.(Recipe.title);
     Recipe.instructions := r.(Recipe.instructions);
     Recipe.minutes_to_complete := r.(Recipe.minutes_to_complete);
     Recipe.user_id := r.(Recipe.user_id) |}.

(** [db.session.add(user); db.session.commit()]: the INSERT into
    [users], returning the row's id.  The driver binds the parameters
    (an [id] outside 64 bits raises [OverflowError]) before SQLite checks
    NOT NULL, the rowid and then the UNIQUE index. *)
Definition insert_user (rnd : nat -> Z) (d : db) (u : User.User) : result (Z * db) :=
  if negb (opt_int64_ok u.(User.id)) then
    Raise (OverflowError "Python int too large to convert to SQLite INTEGER")
  else match u.(User.username) with
  | None => Raise (IntegrityError "NOT NULL constraint failed: users.username")
  | Some _ =>
      i <- assign_rowid rnd "users" d.(users) u.(User.id) ;;
      if username_taken d None u.(User.username) then
        Raise (IntegrityError "UNIQUE constraint failed: users.username")
      else Ok (i, {| users := <[i := with_user_id u i]> d.(users);
                     recipes := d.(recipes) |})
  end.

(** What SQLite does with a recipe row it writes: bind the integers
    (64-bit or [OverflowError]), then the NOT NULL constraints in column
    order; there is no foreign key check. *)
Definition check_recipe_row (r : Recipe.Recipe) : result unit :=
  if negb (opt_int64_ok r.(Recipe.id) && opt_int64_ok r.(Recipe.minutes_to_complete) &&
           opt_int64_ok r.(Recipe.user_id))
  then Raise (OverflowError "Python int too large to convert to SQLite INTEGER")
  else match r.(Recipe.title), r.(Recipe.instructions), r.(Recipe.minutes_to_complete) with
  | None, _, _ => Raise (IntegrityError "NOT NULL constraint failed: recipes.title")
  | _, None, _ => Raise (IntegrityError "NOT NULL constraint failed: recipes.instructions")
  | _, _, None =>
      Raise (IntegrityError "NOT NULL constraint failed: recipes.minutes_to_complete")
  | Some _, Some _, Some _ => Ok tt
  end.

(** [db.session.add(recipe); db.session.commit()]: the INSERT into
    [recipes]. *)
Definition insert_recipe (rnd : nat -> Z) (d : db) (r : Recipe.Recipe) : result (Z * db) :=
  _ <- check_recipe_row r ;;
  i <- assign_rowid rnd "recipes" d.(recipes) r.(Recipe.id) ;;
  Ok (i, {| users := d.(users);
            recipes := <[i := with_recipe_id r i]> d.(recipes) |}).

(** The relationship's sync at flush: the backref [recipe.user] of a
    recipe in [user.recipes] writes the user's new id into
    [recipe.user_id], replacing what it held. *)
Definition set_owner (i : Z) (r : Recipe.Recipe) : Recipe.Recipe :=
  {| Recipe.id := r.(Recipe.id); Recipe.title := r.(Recipe.title);
     Recipe.instructions := r.(Recipe.instructions);
     Recipe.minutes_to_complete := r.(Recipe.minutes_to_complete);
     Recipe.user_id := Some i |}.

(** The recipe INSERTs of one flush, in the order of the collection; the
    [k]-th statement of the flush makes the draws [rnd k]. *)
Fixpoint insert_recipes (rnd : nat -> nat -> Z) (k : nat) (d : db)
    (rs : list Recipe.Recipe) : result (list Z * db) :=
  match rs with
  | [] => Ok ([], d)
  | r :: rs' =>
      p <- insert_recipe (rnd k) d r ;;
      q <- insert_recipes rnd (S k) p.2 rs' ;;
      Ok (p.1 :: q.1, q.2)
  end.

(** [user.recipes = rs] (or [Recipe(..., user=user)] for each recipe),
    [db.session.add(user)], [db.session.commit()]: the save-update cascade
    of the relationship (line 17) puts the recipes in the session; the
    flush inserts the user first, since [recipes.user_id] depends on
    [users.id], then syncs the new id into each recipe and inserts the
    recipes; the first error rolls the whole transaction back. *)
Definition add_user_with_recipes (rnd : nat -> nat -> Z) (d : db) (u : User.User)
    (rs : list Recipe.Recipe) : result (Z * list Z * db) :=
  p <- insert_user (rnd O) d u ;;
  q <- insert_recipes rnd 1 p.2 (set_owner p.1 <$> rs) ;;
  Ok (p.1, q.1, q.2).

(** [recipe = Recipe.query.get(rid)], the writes [setattr(recipe, k, v)]
    (each running its validator), then [db.session.commit()]: the UPDATE
    binds and checks the row as the INSERT does. *)
Definition update_recipe (d : db) (rid : Z) (kw : list Recipe.attr) : result db :=
  match d.(recipes) !! rid with
  | None => Raise (AttributeError "'NoneType' object has no attribute")
  | Some r =>
      r' <- Recipe.setattrs r kw ;;
      _ <- check_recipe_row r' ;;
      Ok {| users := d.(users); recipes := <[rid := r']> d.(recipes) |}
  end.

(** [recipe.user]: the owner row, looked up by [user_id]. *)
Definition recipe_user (d : db) (r : Recipe.Recipe) : option User.User :=
  match r.(Recipe.user_id) with
  | Some i => d.(users) !! i
  | None => None
  end.

(** [user.recipes]: the backref, the recipes whose [user_id] is the
    user's id. *)
Definition user_recipes (d : db) (uid : Z) : gmap Z Recipe.Recipe :=
  filter (fun ir => ir.2.(Recipe.user_id) = Some uid) d.(recipes).

(** [recipe.to_dict()] on a stored recipe. *)
Definition recipe_to_dict (d : db) (r : Recipe.Recipe) : list (string * pyval) :=
  Recipe.to_dict (recipe_user d r) r.

(** [User.query.filter_by(username=name).first()]. *)
Definition query_by_username (d : db) (name : string) : option (Z * User.User) :=
  head (filter (fun iu => iu.2.(User.username) = Some name) (map_to_list d.(users))).

Definition clear_owner (uid : Z) (r : Recipe.Recipe) : Recipe.Recipe :=
  if bool_decide (r.(Recipe.user_id) = Some uid) then
    {| Recipe.id := r.(Recipe.id); Recipe.title := r.(Recipe.title);
       Recipe.instructions := r.(Recipe.instructions);
       Recipe.minutes_to_complete := r.(Recipe.minutes_to_complete);
       Recipe.user_id := None |}
  else r.

(** [db.session.delete(user); db.session.commit()]: the user's recipes
    lose their owner, then the row is deleted. *)
Definition delete_user (d : db) (uid : Z) : db :=
  {| users := delete uid d.(users);
     recipes := clear_owner uid <$> d.(recipes) |}.

Definition delete_recipe (d : db) (rid : Z) : db :=
  {| users := d.(users); recipes := delete rid d.(recipes) |}.

(** Every [user_id] names a stored user (what the foreign key declares). *)
Definition refs_ok (d : db) : Prop :=
  map_Forall (fun _ r => forall j, r.(Recipe.user_id) = Some j -> is_Some (d.(users) !! j))
    d.(recipes).

(** ** The well-formed store

    What the validators and the column constraints together guarantee of
    every stored row. *)

Definition user_row_ok (i : Z) (u : User.User) : Prop :=
  u.(User.id) = Some i /\ User.username_ok u.

Definition recipe_row_ok (i : Z) (r : Recipe.Recipe) : Prop :=
  r.(Recipe.id) = Some i /\ Recipe.title_ok r /\ Recipe.instructions_ok r /\
  is_Some r.(Recipe.minutes_to_complete).

Definition usernames_unique (m : gmap Z User.User) : Prop :=
  forall i j u v, m !! i = Some u -> m !! j = Some v ->
  u.(User.username) = v.(User.username) -> i = j.

(** Every rowid of a table is a signed 64-bit integer. *)
Record wf (d : db) : Prop := {
  wf_users : map_Forall user_row_ok d.(users);
  wf_unique : usernames_unique d.(users);
  wf_recipes : map_Forall recipe_row_ok d.(recipes);
  wf_user_keys : keys_int64 d.(users);
  wf_recipe_keys : keys_int64 d.(recipes)
}.

Section Session.
Context `{BcryptLib}.

(** [user = User.query.get(uid)], the writes [setattr(user, k, v)], then
    [db.session.commit()]: the UPDATE re-checks the constraints on the row,
    the uniqueness of [username] against the other rows. *)
Definition update_user (d : db) (uid : Z) (kw : list User.attr) : result db :=
  match d.(users) !! uid with
  | None => Raise (AttributeError "'NoneType' object has no attribute")
  | Some u =>
      u' <- User.setattrs u kw ;;
      match u'.(User.username) with
      | None => Raise (IntegrityError "NOT NULL constraint failed: users.username")
      | Some _ =>
          if username_taken d (Some uid) u'.(User.username) then
            Raise (IntegrityError "UNIQUE constraint failed: users.username")
          else Ok {| users := <[uid := u']> d.(users); recipes := d.(recipes) |}
      end
  end.

(** One request's effect on the store: a row built by the model's
    constructor (a user's password assigned after it, as the constructor
    refuses it) and inserted, an update of a stored user or recipe (its
    primary key is not rewritten), or a deletion. *)
Inductive step : db -> db -> Prop :=
| step_insert_user d kw kw' u0 u i d' rnd :
    User.init kw = Ok u0 -> User.setattrs u0 kw' = Ok u ->
    insert_user rnd d u = Ok (i, d') -> step d d'
| step_insert_recipe d kw r i d' rnd :
    Recipe.init kw = Ok r -> insert_recipe rnd d r = Ok (i, d') -> step d d'
| step_update_user d uid kw d' :
    Forall (fun a => User.writes_id a = false) kw ->
    update_user d uid kw = Ok d' -> step d d'
| step_delete_user d uid : step d (delete_user d uid)
| step_delete_recipe d rid : step d (delete_recipe d rid)
| step_update_recipe d rid kw d' :
    Forall (fun a => Recipe.writes_id a = false) kw ->
    update_recipe d rid kw = Ok d' -> step d d'
| step_add_user_with_recipes d kw kw' u0 u kws rs i ids d' rnd :
    User.init kw = Ok u0 -> User.setattrs u0 kw' = Ok u -> Forall2 (fun kw r => Recipe.init kw = Ok r) kws rs ->
    add_user_with_recipes rnd d u rs = Ok (i, ids, d') -> step d d'.

Definition reachable (d : db) : Prop := rtc step empty_db d.

End Session.

(** ** Preservation of [wf] by each operation *)

Lemma username_taken_false d ex name j v :
  username_taken d ex name = false -> d.(users) !! j = Some v -> Some j <> ex ->
  v.(User.username) <> name.
Proof.
  unfold username_taken. intros Ht Hj Hex Hn. apply bool_decide_eq_false in Ht.
  apply Ht. exists j, v. auto.
Qed.

Lemma wf_empty : wf empty_db.
Proof. split; try apply map_Forall_empty. intros i j u v Hi. simpl in Hi. by rewrite lookup_empty in Hi. Qed.

(** Inserting a row under a fresh key [i] whose username no other row has
    keeps the usernames unique. *)
Lemma usernames_unique_insert (m : gmap Z User.User) i u :
  usernames_unique m ->
  (forall j v, m !! j = Some v -> v.(User.username) <> u.(User.username) \/ j = i) ->
  usernames_unique (<[i := u]> m).
Proof.
  intros Hu Hfree j k v w Hj Hk E.
  apply lookup_insert_Some in Hj as [[<- <-] | [Hij Hj]];
  apply lookup_insert_Some in Hk as [[<- <-] | [Hik Hk]]; try done.
  - destruct (Hfree _ _ Hk) as [Hne | ->]; [congruence | done].
  - destruct (Hfree _ _ Hj) as [Hne | ->]; [congruence | done].
  - by apply (Hu j k v w).
Qed.

(** A user row that is inserted has no username or a non-empty one, as
    every user the constructor and later writes build has
    ([User.init_username], [User.setattrs_username_none_or_ok]). *)
Lemma insert_user_wf rnd d u i d' :
  wf d -> u.(User.username) = None \/ User.username_ok u ->
  insert_user rnd d u = Ok (i, d') -> wf d'.
Proof.
  intros Hwf Hinit. unfold insert_user. destruct (negb _); [discriminate|].
  destruct (User.username u) as [n|] eqn:Hn; [|discriminate].
  intros E. py_inv. destruct (username_taken d None (Some n)) eqn:Ht; [discriminate|].
  injection E as <- <-.
  destruct (assign_rowid_fresh _ _ _ _ _ (wf_user_keys _ Hwf) Ha) as (Hfresh & Hi & _).
  assert (Hok : User.username_ok u).
  { destruct Hinit as [Hnone | Hok]; [congruence | exact Hok]. }
  split; simpl; try apply Hwf.
  - apply map_Forall_insert_2; [split; [done | exact Hok] | apply Hwf].
  - apply usernames_unique_insert; [apply Hwf|]. intros j v Hj. left. simpl.
    rewrite Hn. by apply (username_taken_false _ _ _ _ _ Ht Hj).
  - apply map_Forall_insert_2; [exact Hi | apply Hwf].
Qed.

Lemma check_recipe_row_Ok r u :
  check_recipe_row r = Ok u ->
  is_Some r.(Recipe.title) /\ is_Some r.(Recipe.instructions) /\
  is_Some r.(Recipe.minutes_to_complete).
Proof.
  unfold check_recipe_row. destruct (negb _); [discriminate|].
  destruct (Recipe.title r), (Recipe.instructions r), (Recipe.minutes_to_complete r);
    done.
Qed.

Lemma check_recipe_row_valid r :
  is_Some r.(Recipe.title) -> is_Some r.(Recipe.instructions) ->
  is_Some r.(Recipe.minutes_to_complete) -> opt_int64_ok r.(Recipe.id) = true ->
  opt_int64_ok r.(Recipe.minutes_to_complete) = true ->
  opt_int64_ok r.(Recipe.user_id) = true -> check_recipe_row r = Ok tt.
Proof.
  intros [t Ht] [x Hx] [m Hm] H0 H1 H2. unfold check_recipe_row.
  rewrite H0, H1, H2, Ht, Hx, Hm. reflexivity.
Qed.

(** What the validators guarantee of a recipe built by the constructor. *)
Definition fields_ok (r : Recipe.Recipe) : Prop :=
  (r.(Recipe.title) = None \/ Recipe.title_ok r) /\
  (r.(Recipe.instructions) = None \/ Recipe.instructions_ok r).

Lemma insert_recipe_wf_fields rnd d r i d' :
  wf d -> fields_ok r -> insert_recipe rnd d r = Ok (i, d') -> wf d'.
Proof.
  intros Hwf [Ht Hs]. unfold insert_recipe. intros E. py_inv.
  destruct (check_recipe_row_Ok _ _ Ha) as ([t Et] & [x Ex] & Hm).
  destruct (assign_rowid_fresh _ _ _ _ _ (wf_recipe_keys _ Hwf) Ha0) as (Hfresh & Hi & _).
  destruct Ht as [Ht | Ht]; [congruence|]. destruct Hs as [Hs | Hs]; [congruence|].
  split; simpl; try apply Hwf.
  - apply map_Forall_insert_2; [|apply Hwf]. by repeat split.
  - apply map_Forall_insert_2; [exact Hi | apply Hwf].
Qed.

Lemma insert_recipe_wf rnd d kw r i d' :
  wf d -> Recipe.init kw = Ok r -> insert_recipe rnd d r = Ok (i, d') -> wf d'.
Proof. intros Hwf Hinit. apply insert_recipe_wf_fields; [done | exact (Recipe.init_fields _ _ Hinit)]. Qed.

Lemma insert_recipes_wf rnd k d rs ids d' :
  wf d -> Forall fields_ok rs -> insert_recipes rnd k d rs = Ok (ids, d') -> wf d'.
Proof.
  revert k d ids. induction rs as [|r rs IH]; intros k d ids Hwf Hrs E; simpl in E.
  - by injection E as _ <-.
  - apply Forall_cons in Hrs as [Hr Hrs].
    apply bind_Ok_inv in E as [[i d1] [E1 E]]. apply bind_Ok_inv in E as [[ids' d2] [E2 E]].
    injection E as _ <-. apply (IH (S k) d1 ids'); [|done|done].
    by apply (insert_recipe_wf_fields (rnd k) d r i d1).
Qed.

Lemma add_user_with_recipes_wf rnd d u kws rs i ids d' :
  wf d -> u.(User.username) = None \/ User.username_ok u -> Forall2 (fun kw r => Recipe.init kw = Ok r) kws rs ->
  add_user_with_recipes rnd d u rs = Ok (i, ids, d') -> wf d'.
Proof.
  intros Hwf Hinit Hkws E. unfold add_user_with_recipes in E.
  apply bind_Ok_inv in E as [[j d1] [E1 E]]. apply bind_Ok_inv in E as [[ids' d2] [E2 E]].
  injection E as _ _ <-. apply (insert_recipes_wf rnd 1 d1 (set_owner j <$> rs) ids'); [| |done].
  - by apply (insert_user_wf (rnd O) d u j d1).
  - apply Forall_fmap. apply (Forall2_Forall_r _ _ kws rs Hkws).
    apply Forall_forall. intros kw' _ r Hr. exact (Recipe.init_fields _ _ Hr).
Qed.

Lemma update_recipe_wf d rid kw d' :
  wf d -> Forall (fun a => Recipe.writes_id a = false) kw ->
  update_recipe d rid kw = Ok d' -> wf d'.
Proof.
  intros Hwf Hkw. unfold update_recipe.
  destruct (recipes d !! rid) as [r|] eqn:Hr; [|discriminate].
  intros E. py_inv. rename a into r'.
  destruct (wf_recipes _ Hwf _ _ Hr) as (Hid & Ht & Hi & _).
  destruct (check_recipe_row_Ok _ _ Ha0) as (_ & _ & Hm).
  assert (Hid' : Recipe.id r' = Some rid).
  { rewrite <- Hid. refine (run_writes_frame Recipe.setattr Recipe.id Recipe.writes_id
      _ kw r r' Hkw Ha). intros s a s' Hw Hs. by apply (Recipe.setattr_frame _ _ _ Hs). }
  assert (Ht' : Recipe.title_ok r').
  { refine (run_writes_invariant Recipe.setattr Recipe.title_ok Recipe.writes_title
      Recipe.setattr_title_step kw r r' Ha _). by left. }
  assert (Hi' : Recipe.instructions_ok r').
  { refine (run_writes_invariant Recipe.setattr Recipe.instructions_ok
      Recipe.writes_instructions Recipe.setattr_instructions_step kw r r' Ha _). by left. }
  split; simpl; try apply Hwf.
  - apply map_Forall_insert_2; [by repeat split | apply Hwf].
  - apply map_Forall_insert_2; [by apply (wf_recipe_keys _ Hwf _ _ Hr) | apply Hwf].
Qed.

Lemma update_user_wf `{BcryptLib} d uid kw d' :
  wf d -> Forall (fun a => User.writes_id a = false) kw ->
  update_user d uid kw = Ok d' -> wf d'.
Proof.
  intros Hwf Hkw. unfold update_user.
  destruct (users d !! uid) as [u|] eqn:Hu; [|discriminate].
  intros E. py_inv. rename a into u'.
  destruct (User.username u') as [n|] eqn:Hn; [|discriminate].
  destruct (username_taken d (Some uid) (Some n)) eqn:Ht; [discriminate|].
  injection E as <-. destruct (wf_users _ Hwf _ _ Hu) as [Hid Hok].
  assert (Hid' : User.id u' = Some uid).
  { rewrite <- Hid. apply (run_writes_frame User.setattr User.id User.writes_id
      User.setattr_id kw u u' Hkw Ha). }
  assert (Hok' : User.username_ok u').
  { apply (run_writes_invariant User.setattr User.username_ok User.writes_username
      User.setattr_username_step kw u u' Ha). by left. }
  split; simpl; try apply Hwf.
  - apply map_Forall_insert_2; [done | apply Hwf].
  - apply usernames_unique_insert; [apply Hwf|]. intros j v Hj.
    destruct (decide (j = uid)) as [-> | Hne]; [by right|]. left. rewrite Hn.
    apply (username_taken_false _ _ _ _ _ Ht Hj). congruence.
  - apply map_Forall_insert_2; [by apply (wf_user_keys _ Hwf _ _ Hu) | apply Hwf].
Qed.

Lemma clear_owner_row_ok uid i r : recipe_row_ok i r -> recipe_row_ok i (clear_owner uid r).
Proof. unfold clear_owner. by case_bool_decide. Qed.

Lemma delete_user_wf d uid : wf d -> wf (delete_user d uid).
Proof.
  intros Hwf. split; simpl.
  - apply map_Forall_delete, Hwf.
  - intros i j u v Hi Hj. apply lookup_delete_Some in Hi as [_ Hi].
    apply lookup_delete_Some in Hj as [_ Hj]. by apply (wf_unique _ Hwf i j u v).
  - apply map_Forall_fmap. intros i r Hr. by apply clear_owner_row_ok, (wf_recipes _ Hwf).
  - apply map_Forall_delete, Hwf.
  - apply map_Forall_fmap. intros i r Hr. by apply (wf_recipe_keys _ Hwf i r).
Qed.

Lemma delete_recipe_wf d rid : wf d -> wf (delete_recipe d rid).
Proof.
  intros Hwf. split; simpl; try apply Hwf.
  - apply map_Forall_delete, Hwf.
  - apply map_Forall_delete, Hwf.
Qed.

Lemma step_wf `{BcryptLib} d d' : wf d -> step d d' -> wf d'.
Proof.
  intros Hwf Hs. destruct Hs as [d kw kw' u0 u i d' rnd Hi Hw E| | | | | |
    d kw kw' u0 u kws rs i ids d' rnd Hi Hw Hkws E].
  - apply (insert_user_wf rnd d u i d' Hwf); [|exact E].
    exact (User.setattrs_username_none_or_ok _ _ _ (User.init_username _ _ Hi) Hw).
  - by apply (insert_recipe_wf rnd d kw r i).
  - by apply (update_user_wf d uid kw).
  - by apply delete_user_wf.
  - by apply delete_recipe_wf.
  - by apply (update_recipe_wf d rid kw).
  - apply (add_user_with_recipes_wf rnd d u kws rs i ids d' Hwf); [|exact Hkws | exact E].
    exact (User.setattrs_username_none_or_ok _ _ _ (User.init_username _ _ Hi) Hw).
Qed.

Lemma filter_none {A} (P : A -> Prop) `{!forall x, Decision (P x)} (l : list A) :
  (forall z, z ∈ l -> ~ P z) -> filter P l = [].
Proof.
  induction l as [|y l IH]; intros Hl; [done|].
  rewrite filter_cons_False by (apply Hl; left). apply IH. intros z Hz. apply Hl. by right.
Qed.

Lemma filter_unique {A} (P : A -> Prop) `{!forall x, Decision (P x)} (l : list A) x :
  NoDup l -> x ∈ l -> P x -> (forall y, y ∈ l -> P y -> y = x) -> filter P l = [x].
Proof.
  induction 1 as [|y l Hy Hl IH]; intros Hx HP Huniq; [inversion Hx|].
  destruct (decide (P y)) as [HPy | HPy].
  - assert (y = x) as <- by (apply Huniq; [left | exact HPy]).
    rewrite filter_cons_True by exact HPy. f_equal. apply filter_none.
    intros z Hz HPz. apply Hy. rewrite <- (Huniq z) by (by right || exact HPz). exact Hz.
  - rewrite filter_cons_False by exact HPy.
    apply elem_of_cons in Hx as [-> | Hx]; [contradiction|].
    apply IH; [exact Hx | exact HP | intros z Hz; apply Huniq; by right].
Qed.

(** C17: every store reachable from the empty one by inserts, updates
    and deletions is well formed: each user row has a non-empty username,
    no two user rows share a username, each recipe row has a non-empty
    title, instructions of at least 50 characters and a duration, every row
    is stored under its own id, and every id is a 64-bit integer. *)
Theorem reachable_wf `{BcryptLib} d : reachable d -> wf d.
Proof.
  unfold reachable. revert d. apply rtc_ind_r; [apply wf_empty|].
  intros d1 d2 _ Hs Hwf. by apply (step_wf d1).
Qed.

(** C18: inserting a user whose username another row already has raises
    [IntegrityError] on the UNIQUE constraint (when a rowid can be
    allocated), and the store is left as it was. *)
Theorem insert_user_duplicate rnd d u j v n :
  u.(User.id) = None -> is_ok (next_rowid rnd d.(users)) = true ->
  d.(users) !! j = Some v -> v.(User.username) = Some n -> u.(User.username) = Some n ->
  insert_user rnd d u = Raise (IntegrityError "UNIQUE constraint failed: users.username").
Proof.
  intros Hid Hnext Hj Hv Hu. unfold insert_user. rewrite Hu, Hid. simpl.
  destruct (next_rowid rnd (users d)); [|discriminate]. simpl.
  replace (username_taken d None (Some n)) with true; [reflexivity|].
  symmetry. apply bool_decide_eq_true. exists j, v. split; [done|]. split; congruence.
Qed.

(** C19: a successful user insert stores the row under an id that was
    free, is a signed 64-bit integer, and is the id the caller gave when it
    gave one; the recipes are untouched. *)
Theorem insert_user_fresh_id rnd d u i d' :
  wf d -> insert_user rnd d u = Ok (i, d') ->
  d.(users) !! i = None /\ int64_ok i = true /\
  d'.(users) !! i = Some (with_user_id u i) /\ d'.(recipes) = d.(recipes) /\
  (forall j, u.(User.id) = Some j -> i = j).
Proof.
  intros Hwf. unfold insert_user. destruct (negb _); [discriminate|].
  destruct (User.username u); [|discriminate].
  intros E. py_inv. destruct (username_taken _ _ _); [discriminate|].
  injection E as <- <-.
  destruct (assign_rowid_fresh _ _ _ _ _ (wf_user_keys _ Hwf) Ha) as (Hf & Hi & Hj).
  simpl. rewrite lookup_insert_eq. auto.
Qed.

Lemma query_by_username_found d i u n :
  wf d -> d.(users) !! i = Some u -> u.(User.username) = Some n ->
  query_by_username d n = Some (i, u).
Proof.
  intros Hwf Hi Hn. unfold query_by_username.
  rewrite (filter_unique _ _ (i, u)); [reflexivity | apply NoDup_map_to_list
    | by apply elem_of_map_to_list | exact Hn |].
  intros [j v] Hj%elem_of_map_to_list Hv. simpl in Hv.
  assert (j = i) as -> by (apply (wf_unique _ Hwf j i v u Hj Hi); congruence).
  congruence.
Qed.

Lemma insert_user_lookup rnd d u i d' :
  insert_user rnd d u = Ok (i, d') -> d'.(users) !! i = Some (with_user_id u i).
Proof.
  unfold insert_user. destruct (negb _); [discriminate|].
  destruct (User.username u); [|discriminate].
  intros E. py_inv. destruct (username_taken _ _ _); [discriminate|].
  injection E as <- <-. apply lookup_insert_eq.
Qed.

Lemma clear_owner_user_id uid r :
  (clear_owner uid r).(Recipe.user_id) =
  if bool_decide (r.(Recipe.user_id) = Some uid) then None else r.(Recipe.user_id).
Proof. unfold clear_owner. by case_bool_decide. Qed.

(** C20: deleting a user deletes none of its recipes (there is no
    cascade): they stay with [user_id = NULL], so no recipe refers to the
    deleted id, the backref is empty, and every remaining reference still
    names a stored user. *)
Theorem delete_user_no_cascade d uid :
  dom (delete_user d uid).(recipes) = dom d.(recipes) /\
  (delete_user d uid).(users) !! uid = None /\
  user_recipes (delete_user d uid) uid = ∅ /\
  (refs_ok d -> refs_ok (delete_user d uid)).
Proof.
  split; [apply dom_fmap_L|]. split; [apply lookup_delete_eq|]. split.
  - apply map_empty_filter_2. intros rid r Hr. simpl in Hr.
    apply lookup_fmap_Some in Hr as [r0 [<- _]]. simpl.
    rewrite clear_owner_user_id. case_bool_decide; congruence.
  - intros Hrefs rid r Hr j Hj. simpl in Hr.
    apply lookup_fmap_Some in Hr as [r0 [<- Hr0]].
    rewrite clear_owner_user_id in Hj. case_bool_decide as Hown; [discriminate|].
    simpl. rewrite lookup_delete_ne by congruence. by apply (Hrefs rid r0).
Qed.

(** C21: the foreign key is not enforced: a recipe whose [user_id] names
    no user is inserted (when its columns pass their constraints), and the
    store then holds a dangling reference. *)
Theorem insert_recipe_dangling rnd d r j :
  d.(users) !! j = None -> r.(Recipe.user_id) = Some j -> r.(Recipe.id) = None ->
  is_Some r.(Recipe.title) -> is_Some r.(Recipe.instructions) ->
  opt_int64_ok r.(Recipe.minutes_to_complete) = true -> int64_ok j = true ->
  is_Some r.(Recipe.minutes_to_complete) -> is_ok (next_rowid rnd d.(recipes)) = true ->
  exists i d', insert_recipe rnd d r = Ok (i, d') /\ ~ refs_ok d'.
Proof.
  intros Hj Hu Hid Ht Hx Hm Hj64 Hmm Hnext. unfold insert_recipe.
  rewrite check_recipe_row_valid by (try rewrite Hu; try rewrite Hid; done). simpl. rewrite Hid. simpl.
  destruct (next_rowid rnd (recipes d)) as [i|] eqn:Hn; [|discriminate]. simpl.
  eexists i, _. split; [reflexivity|]. intros Hrefs.
  destruct (Hrefs i (with_recipe_id r i) (lookup_insert_eq _ _ _) j Hu) as [v Hv].
  simpl in Hv. congruence.
Qed.

(** C26: a user insert can always go through: a user with a fresh,
    non-empty username and no explicit id is inserted into any store whose
    rowids are not exhausted. *)
Theorem insert_user_progress rnd d u n :
  u.(User.username) = Some n -> u.(User.id) = None ->
  (forall j x, d.(users) !! j = Some x -> x.(User.username) <> Some n) ->
  (forall m, max_rowid d.(users) = Some m -> m < int64_max) ->
  exists i d', insert_user rnd d u = Ok (i, d').
Proof.
  intros Hn Hid Hfree Hmax. unfold insert_user. rewrite Hn, Hid.
  unfold assign_rowid, next_rowid.
  destruct (max_rowid (users d)) as [m|] eqn:Hm.
  1: rewrite (proj2 (Z.ltb_lt _ _) (Hmax m eq_refl)).
  all: cbn [bind]; unfold username_taken; rewrite bool_decide_eq_false_2; [by eexists _, _|].
  all: intros [j [x [Hj [_ Hx]]]]; by apply (Hfree j x Hj).
Qed.

(** C27: ids are not unique over time: when the user with the largest id
    is deleted (and the id below it is in use), a new user registering the
    same username is given the deleted user's id. *)
Theorem user_id_reused rnd d uid v u n :
  wf d -> d.(users) !! uid = Some v -> is_Some (d.(users) !! (uid - 1)) ->
  (forall j x, d.(users) !! j = Some x -> j <= uid) ->
  v.(User.username) = Some n -> u.(User.username) = Some n -> u.(User.id) = None ->
  exists d', insert_user rnd (delete_user d uid) u = Ok (uid, d').
Proof.
  intros Hwf Hv Hprev Hle Hvn Hun Hid.
  unfold insert_user. rewrite Hun, Hid. unfold assign_rowid, next_rowid. cbn [users delete_user].
  rewrite (max_rowid_delete_prev _ uid Hle Hprev).
  pose proof (wf_user_keys _ Hwf _ _ Hv) as Hk. unfold int64_ok in Hk.
  apply andb_prop in Hk as [_ Hk]. apply Z.leb_le in Hk.
  rewrite (proj2 (Z.ltb_lt _ _)) by lia. cbn [bind].
  replace (uid - 1 + 1) with uid by lia.
  unfold username_taken. rewrite bool_decide_eq_false_2; [by eexists|].
  intros [j [x [Hj [_ Hx]]]]. simpl in Hj. apply lookup_delete_Some in Hj as [Hne Hj].
  apply Hne. apply (wf_unique _ Hwf uid j v x Hv Hj). congruence.
Qed.

(** C28: the JSON view of a stored recipe in a well-formed store has the
    column types the schema declares: an integer id equal to its key, a
    non-empty string title, a string of at least 50 characters as
    instructions, an integer duration, and the owner's view or [None]. *)
Theorem recipe_to_dict_typed d rid r :
  wf d -> d.(recipes) !! rid = Some r ->
  exists t x m,
    recipe_to_dict d r =
      [("id", PyInt rid); ("title", PyStr t); ("instructions", PyStr x);
       ("minutes_to_complete", PyInt m);
       ("user", match recipe_user d r with
                | Some u => PyDict (User.to_dict u)
                | None => PyNone
                end)]%string /\
    t <> ""%string /\ (50 <= String.length x)%nat.
Proof.
  intros Hwf Hr. destruct (wf_recipes _ Hwf _ _ Hr) as (Hid & Ht & [x [Hx Hl]] & [m Hm]).
  apply py_truthy_spec in Ht as [t [Ht Hne]].
  exists t, x, m. unfold recipe_to_dict, Recipe.to_dict.
  rewrite Hid, Ht, Hx, Hm. by split.
Qed.

(** ** The save-update cascade of the relationship *)

Lemma insert_user_Ok rnd d u i d' :
  keys_int64 d.(users) -> insert_user rnd d u = Ok (i, d') ->
  d.(users) !! i = None /\ d'.(recipes) = d.(recipes) /\
  d'.(users) = <[i := with_user_id u i]> d.(users).
Proof.
  intros Hkeys. unfold insert_user. destruct (negb _); [discriminate|].
  destruct (User.username u); [|discriminate].
  intros E. apply bind_Ok_inv in E as [j [Hj E]].
  destruct (username_taken _ _ _); [discriminate|]. injection E as <- <-.
  by destruct (assign_rowid_fresh _ _ _ _ _ Hkeys Hj) as (Hf & _).
Qed.

Lemma insert_recipe_Ok rnd d r i d' :
  keys_int64 d.(recipes) -> insert_recipe rnd d r = Ok (i, d') ->
  d.(recipes) !! i = None /\ int64_ok i = true /\ d'.(users) = d.(users) /\
  d'.(recipes) = <[i := with_recipe_id r i]> d.(recipes).
Proof.
  intros Hkeys. unfold insert_recipe. intros E.
  apply bind_Ok_inv in E as [_ [_ E]]. apply bind_Ok_inv in E as [j [Hj E]].
  injection E as <- <-. by destruct (assign_rowid_fresh _ _ _ _ _ Hkeys Hj) as (Hf & Hi & _).
Qed.

(** The rows a flush of recipes adds: each recipe of the list under the
    id returned at its position, beside the rows already there. *)
Lemma insert_recipes_spec rnd k d rs ids d' :
  keys_int64 d.(recipes) -> insert_recipes rnd k d rs = Ok (ids, d') ->
  d'.(users) = d.(users) /\ length ids = length rs /\
  forall rid x, d'.(recipes) !! rid = Some x <->
    d.(recipes) !! rid = Some x \/
    exists j r, ids !! j = Some rid /\ rs !! j = Some r /\ x = with_recipe_id r rid.
Proof.
  revert k d ids. induction rs as [|r rs IH]; intros k d ids Hkeys E; simpl in E.
  - injection E as <- <-. split; [done | split; [done|]]. intros rid x.
    split; [by left|]. intros [Hx | (j & r & Hj & _)]; [done | by rewrite lookup_nil in Hj].
  - apply bind_Ok_inv in E as [[i d1] [E1 E]]. apply bind_Ok_inv in E as [[ids' d2] [E2 E]].
    injection E as <- <-.
    destruct (insert_recipe_Ok _ _ _ _ _ Hkeys E1) as (Hfresh & Hi & Hu1 & Hr1).
    assert (Hkeys1 : keys_int64 d1.(recipes)) by (rewrite Hr1; by apply map_Forall_insert_2).
    destruct (IH _ _ _ Hkeys1 E2) as (Hu2 & Hlen & Hiff).
    split; [congruence | split; [simpl; lia|]]. intros rid x. rewrite Hiff, Hr1, lookup_insert_Some.
    split.
    + intros [[[<- <-] | [Hne Hx]] | (j & r' & Hj & Hr' & ->)]; [right; by exists 0%nat, r | by left |].
      right. by exists (S j), r'.
    + intros [Hx | ([|j] & r' & Hj & Hr' & ->)].
      * left. right. split; [|done]. intros <-. congruence.
      * injection Hj as <-. injection Hr' as <-. by left; left.
      * right. by exists j, r'.
Qed.

Lemma max_rowid_insert_above {A} (t : gmap Z A) i x :
  (forall k y, t !! k = Some y -> k < i) -> max_rowid (<[i := x]> t) = Some i.
Proof.
  intros Hlt. destruct (max_rowid (<[i := x]> t)) as [mx|] eqn:Hm.
  - destruct (max_rowid_elem _ _ Hm) as [y Hy].
    pose proof (max_rowid_ge _ _ _ _ Hm (lookup_insert_eq t i x)).
    apply lookup_insert_Some in Hy as [[-> _] | [_ Hy]]; [done|].
    apply Hlt in Hy. lia.
  - pose proof (max_rowid_None _ i Hm) as Hn. by rewrite lookup_insert_eq in Hn.
Qed.

(** A recipe inserted without an id below the rowid bound gets the next
    rowid, which becomes the largest. *)
Lemma insert_recipe_next rnd d r i d' :
  r.(Recipe.id) = None -> default 0 (max_rowid d.(recipes)) < int64_max ->
  insert_recipe rnd d r = Ok (i, d') ->
  i = default 0 (max_rowid d.(recipes)) + 1 /\ max_rowid d'.(recipes) = Some i.
Proof.
  intros Hid Hm E. pose proof E as E'. unfold insert_recipe in E'.
  apply bind_Ok_inv in E' as [_ [_ E']]. apply bind_Ok_inv in E' as [j [Hj E']].
  injection E' as <- <-. rewrite Hid in Hj. unfold assign_rowid, next_rowid in Hj. simpl.
  destruct (max_rowid (recipes d)) as [mx|] eqn:Hmx; simpl in Hm |- *.
  - rewrite (proj2 (Z.ltb_lt _ _) Hm) in Hj. injection Hj as <-. split; [done|].
    apply max_rowid_insert_above. intros k y Hk. pose proof (max_rowid_ge _ _ _ _ Hmx Hk). lia.
  - injection Hj as <-. split; [done|].
    apply max_rowid_insert_above. intros k y Hk. by rewrite (max_rowid_None _ k Hmx) in Hk.
Qed.

Lemma insert_recipes_in_order rnd k d rs ids d' :
  Forall (fun r => r.(Recipe.id) = None) rs ->
  default 0 (max_rowid d.(recipes)) + Z.of_nat (length rs) <= int64_max ->
  insert_recipes rnd k d rs = Ok (ids, d') ->
  ids = seqZ (default 0 (max_rowid d.(recipes)) + 1) (Z.of_nat (length rs)).
Proof.
  revert k d ids d'. induction rs as [|r rs IH]; intros k d ids d' Hids Hle E; simpl in E.
  - injection E as <- _. by rewrite seqZ_nil.
  - apply Forall_cons in Hids as [Hid Hids]. simpl length in Hle.
    apply bind_Ok_inv in E as [[i d1] [E1 E]]. apply bind_Ok_inv in E as [[ids' d2] [E2 E]].
    injection E as <- _.
    destruct (insert_recipe_next (rnd k) d r i d1 Hid ltac:(lia) E1) as [-> Hm1].
    rewrite (IH (S k) d1 ids' d2 Hids); [|rewrite Hm1; simpl; lia | done].
    rewrite Hm1. simpl. rewrite (seqZ_cons _ (Z.of_nat (S (length rs)))) by lia.
    f_equal. f_equal; lia.
Qed.

(** C32: [user.recipes = rs] then one commit: on success [user.recipes]
    read back from the store is exactly the appended list, each recipe
    under the id the flush returned at its position and owned by the new
    user; no other row joins the collection, provided every stored
    [user_id] names a stored user. *)
Theorem add_user_with_recipes_collection rnd d u rs i ids d' :
  wf d -> refs_ok d -> add_user_with_recipes rnd d u rs = Ok (i, ids, d') ->
  length ids = length rs /\
  forall rid x, user_recipes d' i !! rid = Some x <->
    exists j r, ids !! j = Some rid /\ rs !! j = Some r /\
                x = with_recipe_id (set_owner i r) rid.
Proof.
  intros Hwf Hrefs E. unfold add_user_with_recipes in E.
  apply bind_Ok_inv in E as [[i' d1] [E1 E]]. apply bind_Ok_inv in E as [[ids' d2] [E2 E]].
  injection E as -> -> ->. simpl in E2.
  destruct (insert_user_Ok _ _ _ _ _ (wf_user_keys _ Hwf) E1) as (Hfresh & Hr1 & _).
  assert (Hkeys : keys_int64 d1.(recipes)) by (rewrite Hr1; apply Hwf).
  destruct (insert_recipes_spec _ _ _ _ _ _ Hkeys E2) as (_ & Hlen & Hiff).
  rewrite length_fmap in Hlen. split; [done|]. intros rid x.
  unfold user_recipes. rewrite map_lookup_filter_Some, Hiff, Hr1. simpl. split.
  - intros [[Hx | (j & r' & Hj & Hr' & ->)] Hown].
    + destruct (Hrefs rid x Hx i Hown) as [v Hv]. congruence.
    + rewrite list_lookup_fmap in Hr'. destruct (rs !! j) as [r|] eqn:Hr; [|discriminate].
      injection Hr' as <-. by exists j, r.
  - intros (j & r & Hj & Hr & ->). split; [|done]. right.
    exists j, (set_owner i r). by rewrite list_lookup_fmap, Hr.
Qed.

(** C33: the flush inserts the user's recipes in the order of the
    collection: recipes built without an id get consecutive rowids after
    the largest one of the table, the first recipe the smallest. *)
Theorem add_user_with_recipes_in_order rnd d u rs i ids d' :
  Forall (fun r => r.(Recipe.id) = None) rs ->
  default 0 (max_rowid d.(recipes)) + Z.of_nat (length rs) <= int64_max ->
  add_user_with_recipes rnd d u rs = Ok (i, ids, d') ->
  ids = seqZ (default 0 (max_rowid d.(recipes)) + 1) (Z.of_nat (length rs)).
Proof.
  intros Hids Hle E. unfold add_user_with_recipes in E.
  apply bind_Ok_inv in E as [[i' d1] [E1 E]]. apply bind_Ok_inv in E as [[ids' d2] [E2 E]].
  injection E as _ <- _. simpl in E2.
  assert (Hr1 : d1.(recipes) = d.(recipes)).
  { unfold insert_user in E1. destruct (negb _); [discriminate|].
    destruct (User.username u); [|discriminate].
    apply bind_Ok_inv in E1 as [j [_ E1]]. destruct (username_taken _ _ _); [discriminate|].
    by injection E1 as _ <-. }
  rewrite <- Hr1, <- (length_fmap (set_owner i')).
  apply (insert_recipes_in_order rnd 1 d1 _ ids' d2); [|by rewrite length_fmap, Hr1|exact E2].
  apply Forall_fmap. exact Hids.
Qed.

End Store.
(** ** The Store properties on a concrete store (with [ToyBcrypt]) *)

Module StoreExamples.
Import ToyBcrypt.

(** Draws of [sqlite3_randomness]; no insert below reads them, since no
    table reaches the largest rowid. *)
Definition no_draws (n : nat) : Z := 0.

(** [chef = User(username="chef1")], then [chef.password_hash = "hunter2"]. *)
Definition chef_kw : list User.attr := [User.Set_username (Some "chef1")].
Definition chef_pw_kw : list User.attr :=
  [User.Set_password_hash (Some (Unicode.of_string "hunter2")) salt1].
Definition chef0 : User.User := ok_or User.empty (User.init chef_kw).
Definition chef : User.User := ok_or User.empty (User.setattrs chef0 chef_pw_kw).
Definition db1 : Store.db :=
  (ok_or (0, Store.empty_db) (Store.insert_user no_draws Store.empty_db chef)).2.

Definition soup_kw : list Recipe.attr :=
  [Recipe.Set_title (Some "Soup"); Recipe.Set_instructions (Some (str_repeat 50 "x"));
   Recipe.Set_minutes_to_complete (Some 30); Recipe.Set_user_id (Some 1)].
Definition soup : Recipe.Recipe := ok_or Recipe.empty (Recipe.init soup_kw).
Definition db2 : Store.db := (ok_or (0, db1) (Store.insert_recipe no_draws db1 soup)).2.

Lemma chef_init : User.init chef_kw = Ok chef0.
Proof. apply ok_or_spec. vm_compute. reflexivity. Qed.

Lemma chef_set : User.setattrs chef0 chef_pw_kw = Ok chef.
Proof. apply ok_or_spec. vm_compute. reflexivity. Qed.

Lemma soup_init : Recipe.init soup_kw = Ok soup.
Proof. apply ok_or_spec. vm_compute. reflexivity. Qed.

Lemma db1_insert : Store.insert_user no_draws Store.empty_db chef = Ok (1, db1).
Proof. vm_compute. reflexivity. Qed.

Lemma db2_insert : Store.insert_recipe no_draws db1 soup = Ok (1, db2).
Proof. vm_compute. reflexivity. Qed.

Lemma db2_reachable : Store.reachable db2.
Proof.
  eapply rtc_l; [exact (Store.step_insert_user _ _ _ _ _ _ _ _ chef_init chef_set db1_insert)|].
  eapply rtc_l; [exact (Store.step_insert_recipe _ _ _ _ _ _ soup_init db2_insert)|].
  apply rtc_refl.
Qed.

Lemma db2_wf : Store.wf db2.
Proof.
  apply (Store.step_wf db1); [|exact (Store.step_insert_recipe _ _ _ _ _ _ soup_init db2_insert)].
  apply (Store.step_wf Store.empty_db); [apply Store.wf_empty|].
  exact (Store.step_insert_user _ _ _ _ _ _ _ _ chef_init chef_set db1_insert).
Qed.

Lemma reachable_wf_witness : Store.wf db2.
Proof. exact (Store.reachable_wf db2 db2_reachable). Defined.

Lemma insert_user_duplicate_witness :
  Store.insert_user no_draws db2 (ok_or User.empty (User.init [User.Set_username (Some "chef1")])) =
  Raise (IntegrityError "UNIQUE constraint failed: users.username").
Proof.
  apply (Store.insert_user_duplicate no_draws db2 _ 1 (Store.with_user_id chef 1) "chef1");
    vm_compute; reflexivity.
Defined.

Lemma insert_user_fresh_id_witness :
  db1.(Store.users) !! 1 = Some (Store.with_user_id chef 1).
Proof.
  apply (Store.insert_user_fresh_id no_draws Store.empty_db chef 1 db1 Store.wf_empty db1_insert).
Defined.

Lemma insert_recipe_dangling_witness :
  exists i d', Store.insert_recipe no_draws db1
    (Recipe.mkRecipe None (Some "Soup") (Some (str_repeat 50 "x")) (Some 30) (Some 7)) =
    Ok (i, d') /\ ~ Store.refs_ok d'.
Proof.
  apply (Store.insert_recipe_dangling no_draws _ _ 7); vm_compute;
    try reflexivity; eexists; reflexivity.
Defined.
Lemma delete_user_no_cascade_witness :
  Store.user_recipes (Store.delete_user db2 1) 1 = ∅ /\
  dom (Store.delete_user db2 1).(Store.recipes) = dom db2.(Store.recipes).
Proof.
  destruct (Store.delete_user_no_cascade db2 1) as (Hdom & _ & Hback & _). by split.
Defined.
Definition chef2 : User.User := ok_or User.empty (User.init [User.Set_username (Some "chef2")]).
Definition db_two : Store.db := (ok_or (0, db2) (Store.insert_user no_draws db2 chef2)).2.

Lemma db_two_insert : Store.insert_user no_draws db2 chef2 = Ok (2, db_two).
Proof. vm_compute. reflexivity. Qed.

Lemma db_two_wf : Store.wf db_two.
Proof.
  apply (Store.step_wf db2); [exact db2_wf|].
  apply (Store.step_insert_user _ [User.Set_username (Some "chef2")] [] chef2 chef2 2 _ no_draws);
    [vm_compute; reflexivity | reflexivity | exact db_two_insert].
Qed.

Lemma db2_no_chef2 :
  map_Forall (fun _ (x : User.User) => x.(User.username) <> Some "chef2") db2.(Store.users).
Proof. apply (bool_decide_unpack _). vm_compute. reflexivity. Qed.

Lemma db_two_ids_le :
  map_Forall (fun j (_ : User.User) => j <= 2) db_two.(Store.users).
Proof. apply (bool_decide_unpack _). vm_compute. reflexivity. Qed.

Lemma insert_user_progress_witness :
  exists i d', Store.insert_user no_draws db2 chef2 = Ok (i, d').
Proof.
  apply (Store.insert_user_progress no_draws db2 chef2 "chef2"); [reflexivity | reflexivity | |].
  - intros j x Hj. exact (db2_no_chef2 j x Hj).
  - intros m Hm. vm_compute in Hm. injection Hm as <-. vm_compute. reflexivity.
Defined.

Lemma user_id_reused_witness :
  exists d', Store.insert_user no_draws (Store.delete_user db_two 2) chef2 = Ok (2, d').
Proof.
  apply (Store.user_id_reused no_draws db_two 2 (Store.with_user_id chef2 2) chef2 "chef2" db_two_wf);
    try (vm_compute; reflexivity).
  - eexists. vm_compute. reflexivity.
  - intros j x Hj. exact (db_two_ids_le j x Hj).
Defined.

Lemma recipe_to_dict_typed_witness :
  exists t x m,
    Store.recipe_to_dict db2 (Store.with_recipe_id soup 1) =
      [("id", PyInt 1); ("title", PyStr t); ("instructions", PyStr x);
       ("minutes_to_complete", PyInt m);
       ("user", match Store.recipe_user db2 (Store.with_recipe_id soup 1) with
                | Some u => PyDict (User.to_dict u)
                | None => PyNone
                end)]%string /\
    t <> ""%string /\ (50 <= String.length x)%nat.
Proof. apply (Store.recipe_to_dict_typed db2 1 _ db2_wf). vm_compute. reflexivity. Defined.

(** A flush adding a user with two recipes to [db2]; no statement of it
    reads random draws. *)
Definition no_flush_draws (k n : nat) : Z := 0.

Definition baker : User.User := ok_or User.empty (User.init [User.Set_username (Some "baker")]).
Definition bread : Recipe.Recipe :=
  ok_or Recipe.empty (Recipe.init
    [Recipe.Set_title (Some "Bread"); Recipe.Set_instructions (Some (str_repeat 60 "k"));
     Recipe.Set_minutes_to_complete (Some 90)]).
Definition cake : Recipe.Recipe :=
  ok_or Recipe.empty (Recipe.init
    [Recipe.Set_title (Some "Cake"); Recipe.Set_instructions (Some (str_repeat 55 "c"));
     Recipe.Set_minutes_to_complete (Some 45); Recipe.Set_user_id (Some 1)]).
Definition db_baker : Store.db :=
  (ok_or (0, [], db2) (Store.add_user_with_recipes no_flush_draws db2 baker [bread; cake])).2.

Lemma db_baker_add :
  Store.add_user_with_recipes no_flush_draws db2 baker [bread; cake] = Ok (2, [2; 3], db_baker).
Proof. vm_compute. reflexivity. Qed.

Lemma refs_ok_check d :
  map_Forall (fun _ (r : Recipe.Recipe) =>
    match r.(Recipe.user_id) with
    | Some j => bool_decide (is_Some (d.(Store.users) !! j))
    | None => true
    end = true) d.(Store.recipes) -> Store.refs_ok d.
Proof.
  intros H i r Hr j Hj. specialize (H i r Hr). simpl in H. rewrite Hj in H.
  by apply bool_decide_eq_true in H.
Qed.

Lemma db2_refs_ok : Store.refs_ok db2.
Proof. apply refs_ok_check. apply (bool_decide_unpack _). vm_compute. reflexivity. Qed.

Lemma add_user_with_recipes_collection_witness :
  length [2; 3] = length [bread; cake] /\
  forall rid x, Store.user_recipes db_baker 2 !! rid = Some x <->
    exists j r, [2; 3] !! j = Some rid /\ [bread; cake] !! j = Some r /\
                x = Store.with_recipe_id (Store.set_owner 2 r) rid.
Proof.
  exact (Store.add_user_with_recipes_collection no_flush_draws db2 baker _ 2 _ db_baker
           db2_wf db2_refs_ok db_baker_add).
Defined.

Lemma add_user_with_recipes_in_order_witness :
  [2; 3] = seqZ (default 0 (max_rowid db2.(Store.recipes)) + 1) (Z.of_nat (length [bread; cake])).
Proof.
  apply (Store.add_user_with_recipes_in_order no_flush_draws db2 baker _ 2 _ db_baker);
    [apply (bool_decide_unpack _); vm_compute; reflexivity
    | apply Z.leb_le; vm_compute; reflexivity | exact db_baker_add].
Defined.
End StoreExamples.
