(* ===== verification/Requests.v ===== *)
(** * Signup and login: the request layer over the models and the store

    The request handlers (app.py) are not among the sources; the spec names
    their contract: a signup builds a [User] from a username and a password
    and stores it, a login looks the user up by its unique username and
    authenticates the password.  [signup] and [login] compose
    [User.init], [User.authenticate], [Store.insert_user] and
    [Store.query_by_username] the way such handlers do, so that the
    theorems here are about the interaction of the three components: the
    validators and the password property of [UserModel], the hashing
    library of [Bcrypt] and the UNIQUE constraint of [Store]. *)

From S2P Require Import Prelude Utf8 Unicode Bcrypt UserModel Store.

Module Requests.

Section WithBcrypt.
Context `{BcryptLib}.

(** [POST /signup]: [User(username=name)], [user.password_hash =
    password], [db.session.add(user); db.session.commit()]; [salt] is
    bcrypt's random salt and [rnd] SQLite's random draws. *)
Definition signup (d : Store.db) (name : string) (password : option Unicode.pystr)
    (salt : list Z) (rnd : nat -> Z) : result (Z * Store.db) :=
  u0 <- User.init [User.Set_username (Some name)] ;;
  u <- User.setattrs u0 [User.Set_password_hash password salt] ;;
  Store.insert_user rnd d u.

(** [POST /login]: [User.query.filter(User.username == name).first()], then
    [user.authenticate(password)]; [None] is the 401 answer. *)
Definition login (d : Store.db) (name : string) (password : option Unicode.pystr)
    : result (option Z) :=
  match Store.query_by_username d name with
  | Some (i, u) => b <- User.authenticate u password ;; Ok (if b then Some i else None)
  | None => Ok None
  end.

(** What a successful signup built and stored. *)
Lemma signup_inv d n p salt rnd i d' :
  signup d n (Some p) salt rnd = Ok (i, d') ->
  exists u0 u h bp, User.init [User.Set_username (Some n)] = Ok u0 /\
    User.setattrs u0 [User.Set_password_hash (Some p) salt] = Ok u /\
    Store.insert_user rnd d u = Ok (i, d') /\ u.(User.username) = Some n /\
    u.(User._password_hash) = Some h /\ salt_ok salt = true /\
    Unicode.encode p = Ok bp /\ utf8_encode h = hashpw_raw bp salt.
Proof.
  unfold signup. intros E. apply bind_Ok_inv in E as [u0 [Hinit E]].
  apply bind_Ok_inv in E as [u [Hset E]].
  pose proof Hinit as H1. cbn [User.init run_writes User.init_setattr] in H1.
  apply bind_Ok_inv in H1 as [u1 [H1 [= <-]]].
  apply User.setattr_username_value in H1 as [Hn _].
  pose proof Hset as H2. cbn [User.setattrs run_writes User.setattr] in H2.
  apply bind_Ok_inv in H2 as [u2 [H2 [= <-]]].
  pose proof (User.password_hash_set_username _ _ _ _ H2) as Hn'.
  apply User.password_hash_set_inv in H2 as (Hs & _ & bp & h & Ep & -> & He).
  exists u1, (User.set_hash u1 (Some h)), h, bp. repeat split; try done.
Qed.

Lemma signup_step d n p salt rnd i d' :
  signup d n p salt rnd = Ok (i, d') -> Store.step d d'.
Proof. unfold signup. intros E. py_inv. exact (Store.step_insert_user d _ _ a a0 i d' rnd Ha Ha0 E). Qed.

Lemma login_found d n i u q :
  Store.query_by_username d n = Some (i, u) ->
  login d n q = b <- User.authenticate u q ;; Ok (if b then Some i else None).
Proof. unfold login. by intros ->. Qed.

(** C24: after a successful signup of [name] with password [p] on a
    well-formed store, logging in as [name] with [q] answers the new id
    exactly when [q] agrees with [p] on its first 72 UTF-8 bytes, and
    [None] (the 401 answer) otherwise; it never raises. *)
Theorem signup_then_login d n p salt rnd i d' q :
  Store.wf d -> signup d n (Some (Unicode.of_string p)) salt rnd = Ok (i, d') ->
  login d' n (Some (Unicode.of_string q)) =
  Ok (if bool_decide (bcrypt_equiv q p) then Some i else None).
Proof.
  intros Hwf Hs. destruct (signup_inv _ _ _ _ _ _ _ Hs)
    as (u0 & u & h & bp & Hinit & Hset & Hins & Hn & Hh & Hsalt & Ep & He).
  rewrite Unicode.encode_of_string in Ep. injection Ep as <-.
  assert (Hwf' : Store.wf d').
  { apply (Store.insert_user_wf rnd d u i d' Hwf); [|exact Hins].
    exact (User.setattrs_username_none_or_ok _ _ _ (User.init_username _ _ Hinit) Hset). }
  rewrite (login_found d' n i (Store.with_user_id u i)); [|
    exact (Store.query_by_username_found d' i _ n Hwf' (Store.insert_user_lookup _ _ _ _ _ Hins) Hn)].
  unfold User.authenticate, Store.with_user_id. cbn [User._password_hash].
  rewrite Hh, He, check_password_hash_raw by exact Hsalt.
  reflexivity.
Qed.

(** C25: logging in as a stored user that has no password hash (a row
    written without a password) raises [AttributeError] instead of
    answering 401. *)
Theorem login_without_hash d n i u q :
  Store.wf d -> d.(Store.users) !! i = Some u -> u.(User.username) = Some n ->
  u.(User._password_hash) = None ->
  login d n q = Raise (AttributeError "'NoneType' object has no attribute 'encode'").
Proof.
  intros Hwf Hi Hn Hh. rewrite (login_found d n i u q) by
    exact (Store.query_by_username_found d i u n Hwf Hi Hn).
  unfold User.authenticate. by rewrite Hh.
Qed.

End WithBcrypt.

End Requests.

(** ** Signup and login on concrete stores (with [ToyBcrypt]) *)

Module RequestsExamples.
Import ToyBcrypt Store.StoreExamples.

Definition db3 : Store.db :=
  (ok_or (0, db2) (Requests.signup db2 "chef2" (Some (Unicode.of_string "pw12345"))
                     salt2 no_draws)).2.

Lemma db3_signup :
  Requests.signup db2 "chef2" (Some (Unicode.of_string "pw12345")) salt2 no_draws = Ok (2, db3).
Proof. vm_compute. reflexivity. Qed.

Lemma signup_then_login_witness :
  Requests.login db3 "chef2" (Some (Unicode.of_string "wrong")) = Ok None.
Proof.
  rewrite (Requests.signup_then_login db2 "chef2" "pw12345" salt2 no_draws 2 db3 "wrong"
             db2_wf db3_signup).
  vm_compute. reflexivity.
Defined.

Definition ghost : User.User := ok_or User.empty (User.init [User.Set_username (Some "ghost")]).
Definition db_ghost : Store.db := (ok_or (0, Store.empty_db) (Store.insert_user no_draws Store.empty_db ghost)).2.

Lemma db_ghost_wf : Store.wf db_ghost.
Proof.
  apply (Store.step_wf Store.empty_db); [apply Store.wf_empty|].
  apply (Store.step_insert_user _ [User.Set_username (Some "ghost")] [] ghost ghost 1 _ no_draws);
    vm_compute; reflexivity.
Qed.

Lemma login_without_hash_witness :
  Requests.login db_ghost "ghost" (Some (Unicode.of_string "x")) =
  Raise (AttributeError "'NoneType' object has no attribute 'encode'").
Proof.
  apply (Requests.login_without_hash db_ghost "ghost" 1 (Store.with_user_id ghost 1));
    [exact db_ghost_wf | vm_compute; reflexivity | reflexivity | reflexivity].
Defined.
End RequestsExamples.
