(* ===== verification/Credential.v ===== *)
(** * An abstract specification of the credential and its refinement

    The contract the [User] password operations offer a caller, stated
    without hashes: the abstract state is the password last set ([None]
    before the first), setting rejects a missing or empty password, and
    checking a candidate answers whether it is bcrypt-equivalent to the
    stored password (equal on the first 72 UTF-8 bytes).  A sequence of
    requests ([op]) is run against the abstract state ([run_abs]) and
    against a [User] row ([run_user], with [User.password_hash_set] and
    [User.authenticate], the request's text passed as a Python [str]); [refines] is the simulation relation between the
    two, and the refinement theorem says they give the same answers and
    raise the same exceptions on every sequence. *)

From S2P Require Import Prelude Utf8 Unicode Bcrypt UserModel.

Module Credential.

(** A request: write [password_hash] (with the salt drawn), or call
    [authenticate]. *)
Inductive op : Type :=
| OpSet (p : option string) (salt : list Z)
| OpCheck (q : option string).

(** Two outcomes agree: both raise the same exception, or both return
    values in the relation. *)
Definition res_rel {A B} (R : A -> B -> Prop) (x : result A) (y : result B) : Prop :=
  match x, y with
  | Ok a, Ok b => R a b
  | Raise e1, Raise e2 => e1 = e2
  | _, _ => False
  end.

(** The abstract credential. *)
Definition abs_state : Type := option string.

Definition abs_step (a : abs_state) (o : op) : result (abs_state * list bool) :=
  match o with
  | OpSet p _ =>
      match p with
      | Some s => if py_truthy p then Ok (Some s, [])
                  else Raise (ValueError "Password must be non-empty.")
      | None => Raise (ValueError "Password must be non-empty.")
      end
  | OpCheck q =>
      match a, q with
      | None, _ => Raise (AttributeError "'NoneType' object has no attribute 'encode'")
      | Some _, None => Raise (TypeError "Unicode-objects must be encoded before hashing")
      | Some p, Some q => Ok (a, [bool_decide (bcrypt_equiv q p)])
      end
  end.

Fixpoint run_abs (a : abs_state) (ops : list op) : result (abs_state * list bool) :=
  match ops with
  | [] => Ok (a, [])
  | o :: ops' =>
      r <- abs_step a o ;;
      r' <- run_abs r.1 ops' ;;
      Ok (r'.1, r.2 ++ r'.2)
  end.

Section Impl.
Context `{BcryptLib}.

Definition user_step (u : User.User) (o : op) : result (User.User * list bool) :=
  match o with
  | OpSet p salt =>
      u' <- User.password_hash_set u (option_map Unicode.of_string p) salt ;; Ok (u', [])
  | OpCheck q => b <- User.authenticate u (option_map Unicode.of_string q) ;; Ok (u, [b])
  end.

Fixpoint run_user (u : User.User) (ops : list op) : result (User.User * list bool) :=
  match ops with
  | [] => Ok (u, [])
  | o :: ops' =>
      r <- user_step u o ;;
      r' <- run_user r.1 ops' ;;
      Ok (r'.1, r.2 ++ r'.2)
  end.

(** The row holds a hash of the abstract password, made with a good salt. *)
Definition refines (a : abs_state) (u : User.User) : Prop :=
  match a with
  | None => u.(User._password_hash) = None
  | Some p => exists salt h, salt_ok salt = true /\
      u.(User._password_hash) = Some h /\ utf8_encode h = hashpw_raw (utf8_encode p) salt
  end.

Definition salts_ok (ops : list op) : Prop :=
  Forall (fun o => match o with OpSet _ salt => salt_ok salt = true | _ => True end) ops.

(** Related outcomes: the same answers, related states. *)
Definition out_rel (x : abs_state * list bool) (y : User.User * list bool) : Prop :=
  refines x.1 y.1 /\ x.2 = y.2.

Lemma set_sim a u p salt :
  salt_ok salt = true ->
  res_rel out_rel (abs_step a (OpSet p salt)) (user_step u (OpSet p salt)).
Proof.
  intros Hs. simpl. destruct p as [p|]; [|reflexivity].
  destruct (py_truthy (Some p)) eqn:Hp.
  - apply py_truthy_spec in Hp as [p' [[= <-] Hp]].
    destruct (User.password_hash_set_ok u (Unicode.of_string p) (utf8_encode p) salt)
      as [u' Hset]; [by rewrite Unicode.of_string_nil | apply Unicode.encode_of_string | done |].
    cbn [option_map]. rewrite Hset. simpl.
    apply User.password_hash_set_inv in Hset as (_ & _ & bp & h & Ep & -> & He).
    rewrite Unicode.encode_of_string in Ep. injection Ep as <-.
    split; [|reflexivity]. exists salt, h. done.
  - destruct p; [|discriminate]. reflexivity.
Qed.

Lemma check_sim a u q :
  refines a u -> res_rel out_rel (abs_step a (OpCheck q)) (user_step u (OpCheck q)).
Proof.
  simpl. unfold User.authenticate. destruct a as [p|]; simpl.
  - intros (salt & h & Hs & Hh & He). rewrite Hh, He.
    destruct q as [q|]; [|reflexivity]. cbn [option_map].
    rewrite check_password_hash_raw by exact Hs. simpl.
    split; [|reflexivity]. exists salt, h. done.
  - intros ->. reflexivity.
Qed.

Lemma step_sim a u o :
  refines a u ->
  (match o with OpSet _ salt => salt_ok salt = true | _ => True end) ->
  res_rel out_rel (abs_step a o) (user_step u o).
Proof. destruct o; intros; [by apply set_sim | by apply check_sim]. Qed.

(** C22: the [User] password operations refine the abstract credential:
    from related states, every sequence of writes and checks (with salts
    as [bcrypt.gensalt()] draws them) gives the same answers and raises
    the same exceptions on both sides, and ends in related states. *)
Theorem refinement ops a u :
  refines a u -> salts_ok ops -> res_rel out_rel (run_abs a ops) (run_user u ops).
Proof.
  revert a u. induction ops as [|o ops IH]; intros a u Hr Hops; [by split|].
  inversion Hops as [|? ? Ho Hops']; subst. simpl.
  pose proof (step_sim a u o Hr Ho) as Hstep.
  destruct (abs_step a o) as [[a1 ba]|e1], (user_step u o) as [[u1 bu]|e2];
    simpl in *; try contradiction; [|exact Hstep].
  destruct Hstep as [Hr1 Hb]; simpl in Hr1, Hb; subst bu. pose proof (IH a1 u1 Hr1 Hops') as Hrest.
  destruct (run_abs a1 ops) as [[a2 ba2]|e1], (run_user u1 ops) as [[u2 bu2]|e2];
    simpl in *; try contradiction; [|exact Hrest].
  destruct Hrest as [Hr2 Hb2]; simpl in Hr2, Hb2; subst bu2. by split.
Qed.

End Impl.

End Credential.

(** ** The refinement on a concrete request sequence (with [ToyBcrypt]) *)

Module CredentialExamples.
Import ToyBcrypt.

Definition chef : User.User := User.mkUser (Some 1) (Some "chef1") None None None.

Definition session_ops : list Credential.op :=
  [Credential.OpSet (Some "hunter2") salt1;
   Credential.OpCheck (Some "hunter2");
   Credential.OpCheck (Some "wrong");
   Credential.OpSet (Some "hunter3") salt2;
   Credential.OpCheck (Some "hunter2")].

Lemma refinement_witness :
  Credential.res_rel Credential.out_rel
    (Credential.run_abs None session_ops) (Credential.run_user chef session_ops).
Proof.
  apply Credential.refinement; [reflexivity|].
  repeat constructor; vm_compute; reflexivity.
Defined.
End CredentialExamples.
